(** * HifiGanModel (nemo/collections/tts/models/hifigan.py)

    A shallow embedding of the HiFi-GAN vocoder training module: the
    configuration objects it reads, the tensors it manipulates directly,
    and its methods as state-passing functions over the model object and
    the trace of calls made to the training framework. *)

From Stdlib Require Import ZArith Floats Bool Lia.
From stdpp Require Import base option list strings gmap fin_maps pretty.

#[local] Set Warnings "-register-all,-inexact-float".
#[local] Open Scope Z_scope.

(** ** Python values, exceptions and results *)

(** The exceptions the modelled code can raise. [ValueError] carries its
    message; the others come from the libraries the code calls: an
    attribute that is absent ([AttributeError]), shapes that do not
    broadcast ([RuntimeError]), an index out of range ([IndexError]). *)
Inductive Exn :=
| ValueError (msg : string)
| AttributeError (attr : string)
| RuntimeError (msg : string)
| IndexError (msg : string).

Inductive Result (A : Type) :=
| Ok (a : A)
| Raise (e : Exn).
Arguments Ok {A} a.
Arguments Raise {A} e.

Definition rbind {A B} (r : Result A) (k : A -> Result B) : Result B :=
  match r with
  | Ok a => k a
  | Raise e => Raise e
  end.

(** A trainable parameter is identified by its qualified name. *)
Definition Param := string.

(** A mapping with OmegaConf's struct flag: when the flag is set the
    mapping refuses keys it does not hold. *)
Record DictConfigOf (V : Type) := mkDict {
  struct_flag : bool;
  content : gmap string V
}.
Arguments mkDict {V} struct_flag content.
Arguments struct_flag {V} d.
Arguments content {V} d.

(** Values found in configurations and passed as keyword arguments. *)
Inductive Node :=
| NNone
| NBool (b : bool)
| NInt (z : Z)
| NFloat (f : float)
| NStr (s : string)
| NIter (ps : list Param)
| NDict (d : DictConfigOf Node).

Abbreviation DictConfig := (DictConfigOf Node).

(** [key in cfg] *)
Definition contains (key : string) (cfg : DictConfig) : bool :=
  bool_decide (is_Some (content cfg !! key)).

(** [cfg.key]: the value when the key is held; for a key that is absent,
    [None] from an open mapping and an [AttributeError] from one whose
    struct flag is set. *)
Definition getattr (cfg : DictConfig) (key : string) : Result Node :=
  match content cfg !! key with
  | Some n => Ok n
  | None => if struct_flag cfg then Raise (AttributeError key) else Ok NNone
  end.

(** Python truth value of a configuration value. *)
Definition truthy (n : Node) : bool :=
  match n with
  | NNone => false
  | NBool b => b
  | NInt z => negb (z =? 0)
  | NFloat f => negb (PrimFloat.eqb f 0%float)
  | NStr s => negb (bool_decide (s = ""%string))
  | NIter ps => true
  | NDict d => negb (bool_decide (content d = ∅))
  end.

(** [with open_dict(d): d.key = v]: the struct flag is lifted for the
    assignment and is back afterwards. *)
Definition open_dict_set (d : DictConfig) (key : string) (v : Node) : DictConfig :=
  mkDict (struct_flag d) (<[key := v]> (content d)).

(** An object built by hydra's [instantiate]: the keyword arguments its
    target was called with (the configuration's entries, [_target_]
    included, overridden by the call's own keyword arguments). *)
Record Obj := mkObj { obj_args : gmap string Node }.

Definition instantiate (cfg : DictConfig) (kwargs : list (string * Node)) : Obj :=
  mkObj (foldr (fun kv m => <[kv.1 := kv.2]> m) (content cfg) kwargs).

(** [torch.utils.data.DataLoader(dataset, collate_fn=dataset.collate_fn, **params)] *)
Record DataLoader := mkDataLoader {
  dataset : Obj;
  loader_params : gmap string Node
}.

(** ** Messages of [nemo.utils.logging] *)

Inductive Level := INFO | WARNING | ERROR.

Inductive LogMsg :=
| MsgFineTuning                      (* "fine-tuning on pre-computed mels" *)
| MsgGroundTruth                     (* "training on ground-truth mels" *)
| MsgShuffleNotFound (name : string) (* "Shuffle should be set to True for ... Manually setting to True" *)
| MsgShuffleFalse (name : string)    (* "The {name} dataloader for {self} has shuffle set to False!!!" *)
| MsgShuffleTrue (name : string).    (* "The {name} dataloader for {self} has shuffle set to True!!!" *)

(** ** Python floats

    Python's [float] is IEEE binary64, as Rocq's primitive floats are. *)

(** [float(z)] for a Python int: the nearest binary64 value. *)
Definition float_of_int (z : Z) : float :=
  SF2Prim (SpecFloat.binary_normalize prec emax z 0 false).

(** [np.ceil]: the least integral float not below [x]; zeros, infinities
    and NaN are returned as they are. *)
Definition np_ceil (x : float) : float :=
  match Prim2SF x with
  | SpecFloat.S754_finite s m e =>
      if 0 <=? e then x
      else
        let c := if s then - (Z.pos m / 2 ^ (- e)) else - ((- Z.pos m) / 2 ^ (- e)) in
        SF2Prim (SpecFloat.binary_normalize prec emax c 0 s)
  | _ => x
  end.

(** A Python number: the literal [0] is an int, [np.ceil] returns a float. *)
Inductive PyNum :=
| PyInt (z : Z)
| PyFloat (f : float).

(** ** Tensors

    A tensor is its shape, its element at each index (one coordinate per
    dimension), and whether autograd tracks it. Shapes are checked when an
    operation runs, as torch does: an operation whose operands do not fit
    raises. *)

Record Tensor (R : Type) := mkTensor {
  shape : list nat;
  item : list nat -> R;
  requires_grad : bool
}.
Arguments mkTensor {R} shape item requires_grad.
Arguments shape {R} t.
Arguments item {R} t idx.
Arguments requires_grad {R} t.

(** Element arithmetic of the tensors' dtype; no algebraic law is assumed
    of it (it is floating point in the program). *)
Class Scalar (R : Type) := {
  r_of_float : float -> R;
  r_of_int : Z -> R;
  r_add : R -> R -> R;
  r_sub : R -> R -> R;
  r_mul : R -> R -> R;
  r_pow : R -> Z -> R;
  r_sqrt : R -> R;
  r_cos : R -> R;
  r_sin : R -> R;
  r_atan2 : R -> R -> R;
  r_max : R -> R -> R
}.

Section Tensors.
Context {R : Type} `{Scalar R}.

(** [torch.zeros_like(t)] *)
Definition zeros_like (t : Tensor R) : Tensor R :=
  mkTensor (shape t) (fun _ => r_of_int 0) false.

(** [t.detach()]: the same values, cut from the autograd graph. *)
Definition detach (t : Tensor R) : Tensor R :=
  mkTensor (shape t) (item t) false.

(** Elementwise application of a unary function. *)
Definition tmap (f : R -> R) (t : Tensor R) : Tensor R :=
  mkTensor (shape t) (fun idx => f (item t idx)) (requires_grad t).

(** [t.squeeze(d)]: dimension [d] is dropped when its size is 1, and the
    tensor is returned as it is otherwise. *)
Definition squeeze (d : nat) (t : Tensor R) : Result (Tensor R) :=
  match shape t !! d with
  | Some 1%nat =>
      Ok (mkTensor (delete d (shape t))
            (fun idx => item t (take d idx ++ 0%nat :: drop d idx))
            (requires_grad t))
  | Some _ => Ok t
  | None => Raise (IndexError "Dimension out of range")
  end.

(** [t.unsqueeze(d)]: a dimension of size 1 is inserted at position [d]. *)
Definition unsqueeze (d : nat) (t : Tensor R) : Result (Tensor R) :=
  if (d <=? length (shape t))%nat then
    Ok (mkTensor (take d (shape t) ++ 1%nat :: drop d (shape t))
          (fun idx => item t (delete d idx))
          (requires_grad t))
  else Raise (IndexError "Dimension out of range").

(** Integer indexing of dimension [d] at position [i], which removes the
    dimension: [t[:, :, i]] is [select 2 i t]. *)
Definition select (d i : nat) (t : Tensor R) : Result (Tensor R) :=
  match shape t !! d with
  | Some n =>
      if (i <? n)%nat then
        Ok (mkTensor (delete d (shape t))
              (fun idx => item t (take d idx ++ i :: drop d idx))
              (requires_grad t))
      else Raise (IndexError "index out of bounds")
  | None => Raise (IndexError "too many indices for tensor")
  end.

(** [t[..., i]] *)
Definition select_last (i : nat) (t : Tensor R) : Result (Tensor R) :=
  select (pred (length (shape t))) i t.

(** Broadcasting of two shapes, read from the last dimension backwards:
    two sizes fit when they are equal or one of them is 1. *)
Fixpoint broadcast_rev (s1 s2 : list nat) : option (list nat) :=
  match s1, s2 with
  | [], s => Some s
  | s, [] => Some s
  | d1 :: r1, d2 :: r2 =>
      match broadcast_rev r1 r2 with
      | Some r =>
          if (d1 =? d2)%nat then Some (d1 :: r)
          else if (d1 =? 1)%nat then Some (d2 :: r)
          else if (d2 =? 1)%nat then Some (d1 :: r)
          else None
      | None => None
      end
  end.

Definition broadcast_shapes (s1 s2 : list nat) : option (list nat) :=
  match broadcast_rev (rev s1) (rev s2) with
  | Some r => Some (rev r)
  | None => None
  end.

(** The index of an operand of shape [s] that the element [idx] of the
    broadcast result reads: its trailing coordinates, with 0 along every
    dimension the operand has with size 1. *)
Definition bidx (s idx : list nat) : list nat :=
  zip_with (fun d i => if (d =? 1)%nat then 0%nat else i) s
    (drop (length idx - length s) idx).

(** An elementwise binary operation with broadcasting ([a - b], [a * b],
    [torch.atan2(a, b)]). *)
Definition tbinop (f : R -> R -> R) (a b : Tensor R) : Result (Tensor R) :=
  match broadcast_shapes (shape a) (shape b) with
  | Some s =>
      Ok (mkTensor s
            (fun idx => f (item a (bidx (shape a) idx)) (item b (bidx (shape b) idx)))
            (requires_grad a || requires_grad b))
  | None => Raise (RuntimeError "The size of tensor a must match the size of tensor b")
  end.

(** [torch.stack([a, b], dim=-1)] *)
Definition stack_last (a b : Tensor R) : Result (Tensor R) :=
  if bool_decide (shape a = shape b) then
    Ok (mkTensor (shape a ++ [2%nat])
          (fun idx =>
             match last idx with
             | Some 0%nat => item a (removelast idx)
             | _ => item b (removelast idx)
             end)
          (requires_grad a || requires_grad b))
  else Raise (RuntimeError "stack expects each tensor to be equal size").

(** [torch.clamp(t, lo)] *)
Definition clamp (t : Tensor R) (lo : float) : Tensor R :=
  tmap (fun x => r_max x (r_of_float lo)) t.

(** [s * t] for a Python float [s] *)
Definition scale (s : float) (t : Tensor R) : Tensor R :=
  tmap (fun x => r_mul x (r_of_float s)) t.

(** [t ** n] for a Python int [n] *)
Definition tpow (t : Tensor R) (n : Z) : Tensor R :=
  tmap (fun x => r_pow x n) t.

End Tensors.

(** ** The training framework

    What the module calls and does not define: the networks and the
    mel-spectrogram extractors built by [instantiate], the loss functors,
    the STFT routines, the optimizers' effect on the trainable state
    ([Net]: weights, gradients and optimizer state), and the plotting
    helpers. *)

Record CosineAnnealing := mkCosineAnnealing {
  sched_optimizer : Obj;
  sched_max_steps : Z;
  sched_min_lr : float;
  sched_warmup_steps : option PyNum   (* [None]: the argument is not passed *)
}.

(** The scheduler dictionaries returned to the trainer. *)
Record SchedulerDict := mkSchedulerDict {
  scheduler : CosineAnnealing;
  interval : string
}.

Class Framework (R : Type) := {
  Net : Type;
  Image : Type;
  (** [self.generator(x=spec)] *)
  generator_call : Obj -> Net -> Tensor R -> Tensor R;
  (** a mel-spectrogram extractor applied to [(audio, audio_len)] *)
  preprocessor_call : Obj -> Tensor R -> Tensor R -> Tensor R * Tensor R;
  (** [self.mpd(y=.., y_hat=..)] and [self.msd(y=.., y_hat=..)]:
      real scores, generated scores, real and generated feature maps *)
  mpd_call : Net -> Tensor R -> Tensor R ->
             list (Tensor R) * list (Tensor R) * list (list (Tensor R)) * list (list (Tensor R));
  msd_call : Net -> Tensor R -> Tensor R ->
             list (Tensor R) * list (Tensor R) * list (list (Tensor R)) * list (list (Tensor R));
  discriminator_loss : list (Tensor R) -> list (Tensor R) -> R * list R * list R;
  feature_loss : list (list (Tensor R)) -> list (list (Tensor R)) -> R;
  generator_loss : list (Tensor R) -> R * list R;
  l1_loss : Tensor R -> Tensor R -> R;
  stft_patch : Tensor R -> Z -> Z -> Z -> Tensor R;
  torch_istft : Tensor R -> Z -> Z -> Z -> Tensor R;
  zero_grad : Obj -> Net -> Net;
  manual_backward : R -> Obj -> Net -> Net;
  optim_step : Obj -> Net -> Net;
  param_group_lr : Obj -> Net -> float;
  generator_parameters : Obj -> list Param;
  mpd_parameters : list Param;
  msd_parameters : list Param;
  isinstance_MelAudioDataset : Obj -> bool;
  HAVE_WANDB : bool;
  plot_spectrogram_to_numpy : Tensor R -> Image;
  (** an element of a length tensor read as a slice bound *)
  r_to_index : R -> nat
}.

(** ** The model object, the trainer and the trace *)

Section Model.
Context {R : Type} {SR : Scalar R} {FW : Framework R}.

(** The entries of the model configuration the module reads. *)
Record ModelConfig := mkModelConfig {
  preprocessor : DictConfig;
  generator_cfg : DictConfig;
  optim : DictConfig;
  max_steps : Z;
  denoise_strength : float
}.

(** The attributes of a [HifiGanModel]. The optimizers and schedulers are
    unset until [configure_optimizers] runs. *)
Record HifiGanModel := mkHifiGanModel {
  _cfg : ModelConfig;
  audio_to_melspec_precessor : Obj;
  trg_melspec_fn : Obj;
  generator : Obj;
  sample_rate : Node;
  stft_bias : option (Tensor R);
  finetune : bool;
  _train_dl : option DataLoader;
  _validation_dl : option DataLoader;
  optim_g : option Obj;
  optim_d : option Obj;
  scheduler_g : option CosineAnnealing;
  scheduler_d : option CosineAnnealing
}.

Inductive Metric :=
| MTensor (r : R)
| MInt (z : Z)
| MFloat (f : float).

Inductive Media :=
| WandbAudio (data : Tensor R) (caption : string) (rate : Node)
| WandbImage (data : Image) (caption : string).

(** The calls the module makes on the framework, in the order made. *)
Inductive Event :=
| Logging (lvl : Level) (msg : LogMsg)
| ZeroGrad (opt : Obj)
| ManualBackward (loss : R) (opt : Obj)
| OptimStep (opt : Obj)
| LogDict (metrics : list (string * Metric))
| Log (name : string) (value : R)
| ExperimentLog (clips : list Media) (specs : list Media).

(** What a method runs in: the model object, the trainable state of the
    networks and optimizers, what the trainer provides ([self.global_step],
    whether [self.logger] is a [WandbLogger]), and the trace so far. *)
Record World := mkWorld {
  self : HifiGanModel;
  net : Net;
  global_step : Z;
  logger_is_wandb : bool;
  events : list Event
}.

(** A method: it may raise, and it leaves a world behind either way. *)
Definition M (A : Type) : Type := World -> Result A * World.

Definition ret {A} (a : A) : M A := fun w => (Ok a, w).

Definition raise {A} (e : Exn) : M A := fun w => (Raise e, w).

Definition bind {A B} (m : M A) (k : A -> M B) : M B :=
  fun w =>
    match m w with
    | (Ok a, w') => k a w'
    | (Raise e, w') => (Raise e, w')
    end.

Definition lift {A} (r : Result A) : M A := fun w => (r, w).

Definition get_self : M HifiGanModel := fun w => (Ok (self w), w).

Definition get_net : M Net := fun w => (Ok (net w), w).

Definition get_world : M World := fun w => (Ok w, w).

Definition set_self (m : HifiGanModel) : M unit :=
  fun w => (Ok tt, mkWorld m (net w) (global_step w) (logger_is_wandb w) (events w)).

Definition set_net (n : Net) : M unit :=
  fun w => (Ok tt, mkWorld (self w) n (global_step w) (logger_is_wandb w) (events w)).

Definition emit (e : Event) : M unit :=
  fun w => (Ok tt, mkWorld (self w) (net w) (global_step w) (logger_is_wandb w) (events w ++ [e])).

(** Reading an attribute that may not have been set yet. *)
Definition attr {A} (name : string) (o : option A) : M A :=
  match o with
  | Some a => ret a
  | None => raise (AttributeError name)
  end.

End Model.

Arguments HifiGanModel R : clear implicits.
Arguments Metric R : clear implicits.

Notation "x <- m ;; k" := (bind m (fun x => k))
  (at level 20, m at level 99, k at level 200, only parsing).
Notation "' pat <- m ;; k" := (bind m (fun x => match x with pat => k end))
  (at level 20, pat pattern, m at level 99, k at level 200, only parsing).

(** ** The methods of [HifiGanModel] *)

Section Methods.
Context {R : Type} {SR : Scalar R} {FW : Framework R}.

(** Attribute assignments on [self]. *)
Definition with_stft_bias (b : option (Tensor R)) (m : HifiGanModel R) : HifiGanModel R :=
  mkHifiGanModel (_cfg m) (audio_to_melspec_precessor m) (trg_melspec_fn m) (generator m)
    (sample_rate m) b (finetune m) (_train_dl m) (_validation_dl m)
    (optim_g m) (optim_d m) (scheduler_g m) (scheduler_d m).

Definition with_train_dl (dl : DataLoader) (m : HifiGanModel R) : HifiGanModel R :=
  mkHifiGanModel (_cfg m) (audio_to_melspec_precessor m) (trg_melspec_fn m) (generator m)
    (sample_rate m) (stft_bias m) (finetune m) (Some dl) (_validation_dl m)
    (optim_g m) (optim_d m) (scheduler_g m) (scheduler_d m).

Definition with_validation_dl (dl : DataLoader) (m : HifiGanModel R) : HifiGanModel R :=
  mkHifiGanModel (_cfg m) (audio_to_melspec_precessor m) (trg_melspec_fn m) (generator m)
    (sample_rate m) (stft_bias m) (finetune m) (_train_dl m) (Some dl)
    (optim_g m) (optim_d m) (scheduler_g m) (scheduler_d m).

Definition with_optim_g (o : Obj) (m : HifiGanModel R) : HifiGanModel R :=
  mkHifiGanModel (_cfg m) (audio_to_melspec_precessor m) (trg_melspec_fn m) (generator m)
    (sample_rate m) (stft_bias m) (finetune m) (_train_dl m) (_validation_dl m)
    (Some o) (optim_d m) (scheduler_g m) (scheduler_d m).

Definition with_optim_d (o : Obj) (m : HifiGanModel R) : HifiGanModel R :=
  mkHifiGanModel (_cfg m) (audio_to_melspec_precessor m) (trg_melspec_fn m) (generator m)
    (sample_rate m) (stft_bias m) (finetune m) (_train_dl m) (_validation_dl m)
    (optim_g m) (Some o) (scheduler_g m) (scheduler_d m).

Definition with_scheduler_g (s : CosineAnnealing) (m : HifiGanModel R) : HifiGanModel R :=
  mkHifiGanModel (_cfg m) (audio_to_melspec_precessor m) (trg_melspec_fn m) (generator m)
    (sample_rate m) (stft_bias m) (finetune m) (_train_dl m) (_validation_dl m)
    (optim_g m) (optim_d m) (Some s) (scheduler_d m).

Definition with_scheduler_d (s : CosineAnnealing) (m : HifiGanModel R) : HifiGanModel R :=
  mkHifiGanModel (_cfg m) (audio_to_melspec_precessor m) (trg_melspec_fn m) (generator m)
    (sample_rate m) (stft_bias m) (finetune m) (_train_dl m) (_validation_dl m)
    (optim_g m) (optim_d m) (scheduler_g m) (Some s).

(** [self.attr = v] *)
Definition assign (f : HifiGanModel R -> HifiGanModel R) : M unit :=
  m <- get_self ;; set_self (f m).

(** *** [__init__]

    [super().__init__] is the base class's: what it leaves on the object
    ([self._train_dl], [self._validation_dl]) is taken as given. The
    result is the object built, or the exception raised, and the messages
    logged. *)
Definition __init__ (cfg : ModelConfig) (train_dl validation_dl : option DataLoader)
  : Result (HifiGanModel R) * list Event :=
  let audio_to_melspec_precessor := instantiate (preprocessor cfg) [] in
  let trg_melspec_fn :=
    instantiate (preprocessor cfg) [("highfreq"%string, NNone); ("use_grads"%string, NBool true)] in
  let generator := instantiate (generator_cfg cfg) [] in
  match getattr (preprocessor cfg) "sample_rate" with
  | Raise e => (Raise e, [])
  | Ok sample_rate =>
      match train_dl with
      | None => (Raise (AttributeError "dataset"), [])
      | Some dl =>
          let finetune := isinstance_MelAudioDataset (dataset dl) in
          (Ok (mkHifiGanModel cfg audio_to_melspec_precessor trg_melspec_fn generator
                 sample_rate None finetune train_dl validation_dl None None None None),
           [Logging INFO (if finetune then MsgFineTuning else MsgGroundTruth)])
      end
  end.

(** *** [configure_optimizers] *)
Definition configure_optimizers : M (list Obj * list SchedulerDict) :=
  m <- get_self ;;
  let og := instantiate (optim (_cfg m))
              [("params"%string, NIter (generator_parameters (generator m)))] in
  _ <- assign (with_optim_g og) ;;
  let od := instantiate (optim (_cfg m))
              [("params"%string, NIter (msd_parameters ++ mpd_parameters))] in
  _ <- assign (with_optim_d od) ;;
  let max_steps := max_steps (_cfg m) in
  let warmup_steps :=
    if finetune m then PyInt 0
    else PyFloat (np_ceil (0.2 * float_of_int max_steps)%float) in
  let sg := mkCosineAnnealing og max_steps 1e-5%float (Some warmup_steps) in
  _ <- assign (with_scheduler_g sg) ;;
  let sch1_dict := mkSchedulerDict sg "step" in
  let sd := mkCosineAnnealing od max_steps 1e-5%float None in
  _ <- assign (with_scheduler_d sd) ;;
  let sch2_dict := mkSchedulerDict sd "step" in
  ret ([og; od], [sch1_dict; sch2_dict]).

(** *** [forward] and [convert_spectrogram_to_audio]

    The [typecheck] decorators only validate against the declared neural
    types; the declared output of [forward] is [('B', 'S', 'T')]. *)
Definition forward (spec : Tensor R) : M (Tensor R) :=
  m <- get_self ;;
  n <- get_net ;;
  ret (generator_call (generator m) n spec).

Definition convert_spectrogram_to_audio (spec : Tensor R) : M (Tensor R) :=
  a <- forward spec ;;
  lift (squeeze 1 a).

(** *** [_bias_denoise] *)

(** The inner function [stft]: magnitudes and phases of the STFT. *)
Definition stft (x : Tensor R) : Result (Tensor R * Tensor R) :=
  rbind (squeeze 1 x) (fun xs =>
  let comp := stft_patch xs 1024 256 1024 in
  rbind (select_last 0 comp) (fun real =>
  rbind (select_last 1 comp) (fun imag =>
  rbind (tbinop r_add (tpow real 2) (tpow imag 2)) (fun sq =>
  let mags := tmap r_sqrt sq in
  rbind (tbinop r_atan2 imag real) (fun phase =>
  Ok (mags, phase)))))).

(** The inner function [istft]: back from magnitudes and phases. *)
Definition istft (mags phase : Tensor R) : Result (Tensor R) :=
  rbind (tbinop r_mul mags (tmap r_cos phase)) (fun re =>
  rbind (tbinop r_mul mags (tmap r_sin phase)) (fun im =>
  rbind (stack_last re im) (fun comp =>
  Ok (torch_istft comp 1024 256 1024)))).

(** [t[:, :, 0][:, :, None]]: the first frame, kept as a dimension of size 1. *)
Definition first_frame (t : Tensor R) : Result (Tensor R) :=
  rbind (select 2 0 t) (unsqueeze 2).

Definition _bias_denoise (audio mel : Tensor R) : M (Tensor R) :=
  m <- get_self ;;
  _ <- match stft_bias m with
       | None =>
           audio_bias <- forward (zeros_like mel) ;;
           '(mags, _) <- lift (stft audio_bias) ;;
           _ <- assign (with_stft_bias (Some mags)) ;;
           bias <- lift (first_frame mags) ;;
           assign (with_stft_bias (Some bias))
       | Some _ => ret tt
       end ;;
  '(audio_mags, audio_phase) <- lift (stft audio) ;;
  m <- get_self ;;
  bias <- attr "stft_bias" (stft_bias m) ;;
  audio_mags <- lift (tbinop r_sub audio_mags (scale (denoise_strength (_cfg m)) bias)) ;;
  let audio_mags := clamp audio_mags 0.0 in
  den <- lift (istft audio_mags audio_phase) ;;
  lift (unsqueeze 1 den).

(** *** Batches

    A batch is [(audio, audio_len)], or [(audio, audio_len, audio_mel)]
    from a dataset of pre-computed mels. Unpacking a batch of the other
    arity raises [ValueError]. *)
Inductive Batch :=
| AudioBatch (audio audio_len : Tensor R)
| MelAudioBatch (audio audio_len audio_mel : Tensor R).

Definition unpack3 (batch : Batch) : M (Tensor R * Tensor R * Tensor R) :=
  match batch with
  | MelAudioBatch a l mel => ret (a, l, mel)
  | AudioBatch _ _ => raise (ValueError "not enough values to unpack (expected 3, got 2)")
  end.

Definition unpack2 (batch : Batch) : M (Tensor R * Tensor R) :=
  match batch with
  | AudioBatch a l => ret (a, l)
  | MelAudioBatch _ _ _ => raise (ValueError "too many values to unpack (expected 2)")
  end.

(** Calls on an optimizer: the effect on the trainable state, and the
    call recorded in the trace. *)
Definition do_zero_grad (opt : Obj) : M unit :=
  n <- get_net ;; _ <- set_net (zero_grad opt n) ;; emit (ZeroGrad opt).

Definition do_manual_backward (loss : R) (opt : Obj) : M unit :=
  n <- get_net ;; _ <- set_net (manual_backward loss opt n) ;; emit (ManualBackward loss opt).

Definition do_step (opt : Obj) : M unit :=
  n <- get_net ;; _ <- set_net (optim_step opt n) ;; emit (OptimStep opt).

(** *** [training_step] *)
Definition training_step (batch : Batch) (batch_idx optimizer_idx : Z) : M unit :=
  m <- get_self ;;
  '(audio, audio_len, audio_mel) <-
    (if finetune m then unpack3 batch
     else
       '(audio, audio_len) <- unpack2 batch ;;
       let '(audio_mel, _) := preprocessor_call (audio_to_melspec_precessor m) audio audio_len in
       ret (audio, audio_len, audio_mel)) ;;
  let '(audio_trg_mel, _) := preprocessor_call (trg_melspec_fn m) audio audio_len in
  audio <- lift (unsqueeze 1 audio) ;;
  n <- get_net ;;
  let audio_pred := generator_call (generator m) n audio_mel in
  pred_sq <- lift (squeeze 1 audio_pred) ;;
  let '(audio_pred_mel, _) := preprocessor_call (trg_melspec_fn m) pred_sq audio_len in
  (* train discriminator *)
  od <- attr "optim_d" (optim_d m) ;;
  _ <- do_zero_grad od ;;
  n <- get_net ;;
  let '(mpd_score_real, mpd_score_gen, _, _) := mpd_call n audio (detach audio_pred) in
  let '(loss_disc_mpd, _, _) := discriminator_loss mpd_score_real mpd_score_gen in
  let '(msd_score_real, msd_score_gen, _, _) := msd_call n audio (detach audio_pred) in
  let '(loss_disc_msd, _, _) := discriminator_loss msd_score_real msd_score_gen in
  let loss_d := r_add loss_disc_msd loss_disc_mpd in
  _ <- do_manual_backward loss_d od ;;
  _ <- do_step od ;;
  (* train generator *)
  og <- attr "optim_g" (optim_g m) ;;
  _ <- do_zero_grad og ;;
  let loss_mel := r_mul (l1_loss audio_pred_mel audio_trg_mel) (r_of_int 45) in
  n <- get_net ;;
  let '(_, mpd_score_gen, fmap_mpd_real, fmap_mpd_gen) := mpd_call n audio audio_pred in
  let '(_, msd_score_gen, fmap_msd_real, fmap_msd_gen) := msd_call n audio audio_pred in
  let loss_fm_mpd := feature_loss fmap_mpd_real fmap_mpd_gen in
  let loss_fm_msd := feature_loss fmap_msd_real fmap_msd_gen in
  let '(loss_gen_mpd, _) := generator_loss mpd_score_gen in
  let '(loss_gen_msd, _) := generator_loss msd_score_gen in
  let loss_g :=
    r_add (r_add (r_add (r_add loss_gen_msd loss_gen_mpd) loss_fm_msd) loss_fm_mpd) loss_mel in
  _ <- do_manual_backward loss_g og ;;
  _ <- do_step og ;;
  w <- get_world ;;
  emit (LogDict
    [("g_l1_loss"%string, MTensor loss_mel);
     ("g_loss_fm_mpd"%string, MTensor loss_fm_mpd);
     ("g_loss_fm_msd"%string, MTensor loss_fm_msd);
     ("g_loss_gen_mpd"%string, MTensor loss_gen_mpd);
     ("g_loss_gen_msd"%string, MTensor loss_gen_msd);
     ("g_loss"%string, MTensor loss_g);
     ("d_loss_mpd"%string, MTensor loss_disc_mpd);
     ("d_loss_msd"%string, MTensor loss_disc_msd);
     ("d_loss"%string, MTensor loss_d);
     ("global_step"%string, MInt (global_step w));
     ("lr"%string, MFloat (param_group_lr og (net w)))]).

(** *** [validation_step] *)

(** [t.shape[k]] *)
Definition size (t : Tensor R) (k : nat) : Result nat :=
  match shape t !! k with
  | Some n => Ok n
  | None => Raise (IndexError "tuple index out of range")
  end.

(** [t[..., :n]] along dimension [d]: slices stop at the dimension's size. *)
Definition narrow (d n : nat) (t : Tensor R) : Result (Tensor R) :=
  match shape t !! d with
  | Some k => Ok (mkTensor (<[d := Nat.min n k]> (shape t)) (item t) (requires_grad t))
  | None => Raise (IndexError "too many indices for tensor")
  end.

(** The frame counts of a batch: a Python list when the mels are
    pre-computed, the extractor's length tensor otherwise. *)
Inductive MelLen :=
| LenList (l : list nat)
| LenTensor (t : Tensor R).

Definition len_at (l : MelLen) (i : nat) : Result nat :=
  match l with
  | LenList ns =>
      match ns !! i with
      | Some n => Ok n
      | None => Raise (IndexError "list index out of range")
      end
  | LenTensor t => rbind (select 0 i t) (fun e => Ok (r_to_index (item e [])))
  end.

(** [audio[i, : audio_len[i]]] *)
Definition clip_of (audio audio_len : Tensor R) (i : nat) : Result (Tensor R) :=
  rbind (len_at (LenTensor audio_len) i) (fun n =>
  rbind (select 0 i audio) (fun row => narrow 0 n row)).

(** [audio_pred[i, 0, : audio_len[i]]] *)
Definition clip_of_channel (audio_pred audio_len : Tensor R) (i : nat) : Result (Tensor R) :=
  rbind (len_at (LenTensor audio_len) i) (fun n =>
  rbind (select 0 i audio_pred) (fun row =>
  rbind (select 0 0 row) (fun chan => narrow 0 n chan))).

(** [plot_spectrogram_to_numpy(mel[i, :, : mel_len[i]])] *)
Definition plot_of (mel : Tensor R) (mel_len : MelLen) (i : nat) : Result Image :=
  rbind (len_at mel_len i) (fun n =>
  rbind (select 0 i mel) (fun sp =>
  rbind (narrow 1 n sp) (fun sp => Ok (plot_spectrogram_to_numpy sp)))).

(** One iteration of the plotting loop: what it appends to [clips] and
    to [specs]. *)
Definition media_of (rate : Node) (audio audio_len audio_pred pred_denoised : Tensor R)
    (audio_mel audio_pred_mel pred_denoised_mel : Tensor R) (gt_mel : option (Tensor R))
    (audio_mel_len : MelLen) (i : nat) : Result (list Media * list Media) :=
  rbind (clip_of audio audio_len i) (fun c_real =>
  rbind (clip_of_channel audio_pred audio_len i) (fun c_gen =>
  rbind (clip_of pred_denoised audio_len i) (fun c_den =>
  rbind (plot_of audio_mel audio_mel_len i) (fun s_in =>
  rbind (plot_of audio_pred_mel audio_mel_len i) (fun s_out =>
  rbind (plot_of pred_denoised_mel audio_mel_len i) (fun s_den =>
  rbind (match gt_mel with
         | Some gt =>
             rbind (plot_of gt audio_mel_len i) (fun s_gt =>
             Ok [WandbImage s_gt ("gt mel " +:+ pretty i)])
         | None => Ok []
         end) (fun s_gt =>
  Ok ([WandbAudio c_real ("real audio " +:+ pretty i) rate;
       WandbAudio c_gen ("generated audio " +:+ pretty i) rate;
       WandbAudio c_den ("denoised audio " +:+ pretty i) rate],
      [WandbImage s_in ("input mel " +:+ pretty i);
       WandbImage s_out ("output mel " +:+ pretty i);
       WandbImage s_den ("denoised mel " +:+ pretty i)] ++ s_gt)))))))).

(** The loop [for i in ...: clips += ...; specs += ...]. *)
Fixpoint media_loop (f : nat -> Result (list Media * list Media)) (indices : list nat)
    (clips specs : list Media) : Result (list Media * list Media) :=
  match indices with
  | [] => Ok (clips, specs)
  | i :: rest =>
      rbind (f i) (fun cs => media_loop f rest (clips ++ cs.1) (specs ++ cs.2))
  end.

Definition validation_step (batch : Batch) (batch_idx : Z) : M unit :=
  m <- get_self ;;
  '(audio, audio_len, audio_mel, audio_mel_len) <-
    (if finetune m then
       '(audio, audio_len, audio_mel) <- unpack3 batch ;;
       frames <- lift (size audio_mel 1) ;;
       count <- lift (size audio_mel 0) ;;
       ret (audio, audio_len, audio_mel, LenList (replicate count frames))
     else
       '(audio, audio_len) <- unpack2 batch ;;
       let '(audio_mel, audio_mel_len) :=
         preprocessor_call (audio_to_melspec_precessor m) audio audio_len in
       ret (audio, audio_len, audio_mel, LenTensor audio_mel_len)) ;;
  audio_pred <- forward audio_mel ;;
  (* perform bias denoising *)
  den <- _bias_denoise audio_pred audio_mel ;;
  pred_denoised <- lift (squeeze 1 den) ;;
  let '(pred_denoised_mel, _) :=
    preprocessor_call (audio_to_melspec_precessor m) pred_denoised audio_len in
  let gt_mel :=
    if finetune m
    then Some (preprocessor_call (audio_to_melspec_precessor m) audio audio_len).1
    else None in
  pred_sq <- lift (squeeze 1 audio_pred) ;;
  let '(audio_pred_mel, _) :=
    preprocessor_call (audio_to_melspec_precessor m) pred_sq audio_len in
  let loss_mel := l1_loss audio_mel audio_pred_mel in
  _ <- emit (Log "val_loss" loss_mel) ;;
  (* plot audio once per epoch *)
  w <- get_world ;;
  if (batch_idx =? 0) && logger_is_wandb w && HAVE_WANDB then
    count <- lift (size audio 0) ;;
    '(clips, specs) <-
      lift (media_loop
              (media_of (sample_rate m) audio audio_len audio_pred pred_denoised
                 audio_mel audio_pred_mel pred_denoised_mel gt_mel audio_mel_len)
              (seq 0 (Nat.min 5 count)) [] []) ;;
    emit (ExperimentLog clips specs)
  else ret tt.

(** *** Data loaders *)

(** [__setup_dataloader_from_config]. The two guards
    [key not in cfg or not isinstance(cfg.key, DictConfig)] are the two
    matches: the entry is held and is a [DictConfig], or the call raises
    [ValueError] (the second message reads "dataloder_params" in the
    source). The configuration is mutated in place when [shuffle] is added
    to it, so the configuration as the call leaves it is returned beside
    the loader. *)
Definition __setup_dataloader_from_config (cfg : DictConfig) (shuffle_should_be : bool)
    (name : string) : M (DictConfig * DataLoader) :=
  match content cfg !! "dataset" with
  | Some (NDict ds) =>
      match content cfg !! "dataloader_params" with
      | Some (NDict params) =>
          params <-
            (if shuffle_should_be then
               if negb (contains "shuffle" params) then
                 _ <- emit (Logging WARNING (MsgShuffleNotFound name)) ;;
                 ret (open_dict_set params "shuffle" (NBool true))
               else
                 shuffle <- lift (getattr params "shuffle") ;;
                 if negb (truthy shuffle)
                 then _ <- emit (Logging ERROR (MsgShuffleFalse name)) ;; ret params
                 else ret params
             else
               shuffle <- lift (getattr params "shuffle") ;;
               if truthy shuffle
               then _ <- emit (Logging ERROR (MsgShuffleTrue name)) ;; ret params
               else ret params) ;;
          let dataset := instantiate ds [] in
          ret (mkDict (struct_flag cfg) (<["dataloader_params" := NDict params]> (content cfg)),
               mkDataLoader dataset (content params))
      | _ => raise (ValueError ("No dataloder_params for " +:+ name))
      end
  | _ => raise (ValueError ("No dataset for " +:+ name))
  end.

Definition setup_training_data (cfg : DictConfig) : M DictConfig :=
  '(cfg', dl) <- __setup_dataloader_from_config cfg true "train" ;;
  _ <- assign (with_train_dl dl) ;;
  ret cfg'.

Definition setup_validation_data (cfg : DictConfig) : M DictConfig :=
  '(cfg', dl) <- __setup_dataloader_from_config cfg false "validation" ;;
  _ <- assign (with_validation_dl dl) ;;
  ret cfg'.

(** *** The life of a model

    What can happen to a model once built: its methods are called, in any
    order and with any arguments, and between two calls the trainer may
    replace what it owns (the trainable state, the step counter, the
    logger). A call that raises leaves the object as it was when the
    exception left the method. *)
Inductive Op :=
| CallConfigureOptimizers
| CallForward (spec : Tensor R)
| CallConvertSpectrogramToAudio (spec : Tensor R)
| CallTrainingStep (batch : Batch) (batch_idx optimizer_idx : Z)
| CallValidationStep (batch : Batch) (batch_idx : Z)
| CallBiasDenoise (audio mel : Tensor R)
| CallSetupTrainingData (cfg : DictConfig)
| CallSetupValidationData (cfg : DictConfig)
| Trainer (n : Net) (step : Z) (wandb : bool).

Definition run_op (op : Op) (w : World) : World :=
  match op with
  | CallConfigureOptimizers => (configure_optimizers w).2
  | CallForward spec => (forward spec w).2
  | CallConvertSpectrogramToAudio spec => (convert_spectrogram_to_audio spec w).2
  | CallTrainingStep batch i o => (training_step batch i o w).2
  | CallValidationStep batch i => (validation_step batch i w).2
  | CallBiasDenoise audio mel => (_bias_denoise audio mel w).2
  | CallSetupTrainingData cfg => (setup_training_data cfg w).2
  | CallSetupValidationData cfg => (setup_validation_data cfg w).2
  | Trainer n step wandb => mkWorld (self w) n step wandb (events w)
  end.

Definition run_ops (ops : list Op) (w : World) : World :=
  fold_left (fun w op => run_op op w) ops w.

(** Modelled from the spec: [CosineAnnealing] is defined elsewhere in the
    repository; a scheduler built without [warmup_steps] has no warmup
    phase, one built with it warms up for that many steps. *)
Definition warmup_length (s : CosineAnnealing) : PyNum :=
  match sched_warmup_steps s with
  | Some n => n
  | None => PyInt 0
  end.

End Methods.

(** ** Vocabulary of the statements *)



(** The parameters the training loader is built with. *)
Definition train_loader_params (params : DictConfig) : gmap string Node :=
  match content params !! "shuffle" with
  | None => <["shuffle" := NBool true]> (content params)
  | Some _ => content params
  end.

(** Frequency bins of a one-sided STFT with [n_fft = 1024]. *)
Definition n_bins : nat := 513.

(** Whether [np.ceil(0.2 * k)] is the float of the exact ceiling of a
    fifth of [k]. *)
Definition warmup_is_fifth (k : Z) : bool :=
  PrimFloat.eqb (np_ceil (0.2 * float_of_int k)%float) (float_of_int ((k + 4) / 5)).

(** [f] holds of the [p] integers from [lo] on. *)
Fixpoint all_from (p : positive) (lo : Z) (f : Z -> bool) : bool :=
  match p with
  | xH => f lo
  | xO q => all_from q lo f && all_from q (lo + Z.pos q) f
  | xI q => f lo && all_from q (lo + 1) f && all_from q (lo + 1 + Z.pos q) f
  end.

Section Notions.
Context {R : Type} {SR : Scalar R} {FW : Framework R}.

(** What setting up the training loader logs about [shuffle]. *)
Definition train_shuffle_log (params : DictConfig) : list Event :=
  match content params !! "shuffle" with
  | None => [Logging WARNING (MsgShuffleNotFound "train")]
  | Some n => if truthy n then [] else [Logging ERROR (MsgShuffleFalse "train")]
  end.

(** The world with more events logged, and with a bias stored. *)
Definition logged (w : World) (evs : list Event) : World :=
  mkWorld (self w) (net w) (global_step w) (logger_is_wandb w) (events w ++ evs).

Definition with_bias (b : Tensor R) (w : World) : World :=
  mkWorld (with_stft_bias (Some b) (self w)) (net w) (global_step w) (logger_is_wandb w)
    (events w).

(** The bias a call of [_bias_denoise] with this mel works with: the one
    the model holds, or else the first frame of the STFT magnitudes of
    the generator's output on the all-zeros mel. *)
Definition uses_bias (w : World) (mel bias : Tensor R) : Prop :=
  match stft_bias (self w) with
  | Some b => b = bias
  | None =>
      exists mags ph,
        stft (generator_call (generator (self w)) (net w) (zeros_like mel)) = Ok (mags, ph) /\
        first_frame mags = Ok bias
  end.

(** The shapes the declared neural types promise: the generator turns a
    [(B, D, T)] mel into [(B, 1, L)] audio, the STFT of [(B, L)] audio is
    [(B, 513, T, 2)] with at least one frame, and the inverse STFT of
    such a tensor is [(B, L)] audio. *)
Definition generator_shape_law : Prop :=
  forall o n spec B D T, shape spec = [B; D; T] ->
    exists L, shape (generator_call o n spec) = [B; 1%nat; L].

Definition stft_shape_law : Prop :=
  forall x B L, shape x = [B; L] ->
    exists T, shape (stft_patch x 1024 256 1024) = [B; n_bins; S T; 2%nat].

Definition istft_shape_law : Prop :=
  forall c B T, shape c = [B; n_bins; T; 2%nat] ->
    exists L, shape (torch_istft c 1024 256 1024) = [B; L].

(** What a training batch unpacks to in the model's mode: the audio, its
    lengths, and the mel fed to the generator. *)
Definition unpacks_to (m : HifiGanModel R) (batch : Batch)
    (audio audio_len audio_mel : Tensor R) : Prop :=
  (finetune m = true /\ batch = MelAudioBatch audio audio_len audio_mel) \/
  (finetune m = false /\ batch = AudioBatch audio audio_len /\
   audio_mel = (preprocessor_call (audio_to_melspec_precessor m) audio audio_len).1).

(** The same for a validation batch, with the frame counts used when
    plotting. *)
Definition validation_inputs (m : HifiGanModel R) (batch : Batch)
    (audio audio_len audio_mel : Tensor R) (audio_mel_len : MelLen) : Prop :=
  (finetune m = true /\ batch = MelAudioBatch audio audio_len audio_mel /\
   exists frames count, size audio_mel 1 = Ok frames /\ size audio_mel 0 = Ok count /\
     audio_mel_len = LenList (replicate count frames)) \/
  (finetune m = false /\ batch = AudioBatch audio audio_len /\
   exists len,
     preprocessor_call (audio_to_melspec_precessor m) audio audio_len = (audio_mel, len) /\
     audio_mel_len = LenTensor len).

(** The events one call of [training_step] can leave, whatever its
    outcome: none, the discriminator's update alone, or the
    discriminator's update followed by the generator's and the metrics. *)
Inductive step_trace : list Event -> Prop :=
| trace_none : step_trace []
| trace_discriminator od loss_d :
    step_trace [ZeroGrad od; ManualBackward loss_d od; OptimStep od]
| trace_both od loss_d og loss_g metrics :
    step_trace [ZeroGrad od; ManualBackward loss_d od; OptimStep od;
                ZeroGrad og; ManualBackward loss_g og; OptimStep og;
                LogDict metrics].

(** A property of the world that a method preserves, whether it returns
    or raises. *)
Definition keeps {A} (P : World -> Prop) (c : M A) : Prop :=
  forall w, P w -> P (c w).2.

(** A property of [self] alone. *)
Definition of_self (Q : HifiGanModel R -> Prop) : World -> Prop := fun w => Q (self w).

Definition bias_is (b : Tensor R) : World -> Prop :=
  of_self (fun m => stft_bias m = Some b).

Definition setup_is (c : ModelConfig) (f : bool) : World -> Prop :=
  of_self (fun m => _cfg m = c /\ finetune m = f).

(** All of the world but [self]. *)
Definition around_self (w0 : World) : World -> Prop :=
  fun w => net w = net w0 /\ global_step w = global_step w0 /\
           logger_is_wandb w = logger_is_wandb w0 /\ events w = events w0.

(** The optimizers [configure_optimizers] builds: [cfg.optim] instantiated
    over the generator's parameters, and over the discriminators'. *)
Definition generator_optimizer (c : ModelConfig) (g : Obj) : Obj :=
  instantiate (optim c) [("params"%string, NIter (generator_parameters g))].

Definition discriminator_optimizer (c : ModelConfig) : Obj :=
  instantiate (optim c) [("params"%string, NIter (msd_parameters ++ mpd_parameters))].

(** A model configured from [c] and [g] that holds these two optimizers. *)
Definition optimizers_of (c : ModelConfig) (g : Obj) : HifiGanModel R -> Prop :=
  fun m => _cfg m = c /\ generator m = g /\
           optim_g m = Some (generator_optimizer c g) /\
           optim_d m = Some (discriminator_optimizer c).

(** The events one call of [validation_step] can leave, whatever its
    outcome: none, the loss alone, or the loss followed by the samples. *)
Inductive validation_trace : list Event -> Prop :=
| validation_none : validation_trace []
| validation_loss v : validation_trace [Log "val_loss" v]
| validation_samples v clips specs :
    validation_trace [Log "val_loss" v; ExperimentLog clips specs].

(** What the trainer owns besides the trainable state. *)
Definition trainer_side (w0 : World) : World -> Prop :=
  fun w => global_step w = global_step w0 /\ logger_is_wandb w = logger_is_wandb w0.

(** What a second set-up of the training loader logs, given the
    parameters the first one started from: the warning about a missing
    [shuffle] is not repeated. *)
Definition train_shuffle_log_again (params : DictConfig) : list Event :=
  if contains "shuffle" params then train_shuffle_log params else [].

(** The audio of a batch, of either arity. *)
Definition batch_audio (batch : Batch) : Tensor R :=
  match batch with
  | AudioBatch audio _ => audio
  | MelAudioBatch audio _ _ => audio
  end.

End Notions.

(** ** A small concrete framework

    Integer-valued tensors and networks small enough to run the methods
    on: the generator turns a [(B, D, T)] mel into [(B, 1, 4)] audio, the
    STFT of [(B, L)] audio has 3 frames, and the
    trainable state is a single integer. The inputs below are the ones the
    examples at the end of the file are run on. *)
Module Toy.

Definition Z_of_float (f : float) : Z :=
  match Prim2SF f with
  | SpecFloat.S754_finite s m e =>
      let v := if 0 <=? e then Z.pos m * 2 ^ e else Z.pos m / 2 ^ (- e) in
      if s then - v else v
  | _ => 0
  end.

#[export] Instance scalar : Scalar Z := {|
  r_of_float := Z_of_float;
  r_of_int := fun z => z;
  r_add := Z.add;
  r_sub := Z.sub;
  r_mul := Z.mul;
  r_pow := Z.pow;
  r_sqrt := Z.sqrt;
  r_cos := fun _ => 1;
  r_sin := fun _ => 0;
  r_atan2 := fun _ _ => 0;
  r_max := Z.max
|}.

(** The element at index [0, ..., 0]. *)
Definition probe (t : Tensor Z) : Z := item t (map (fun _ => 0%nat) (shape t)).

Definition probes (ts : list (Tensor Z)) : Z := foldr (fun t acc => probe t + acc) 0 ts.

Definition coord (idx : list nat) (k : nat) : nat := nth k idx 0%nat.

Definition batch_size (t : Tensor Z) : nat := nth 0 (shape t) 0%nat.

Definition mel_target : string := "nemo.collections.tts.data.datalayers.MelAudioDataset".

#[export] Instance framework : Framework Z := {|
  Net := Z;
  Image := list nat;
  generator_call := fun _ n spec =>
    mkTensor [batch_size spec; 1%nat; 4%nat]
      (fun idx => n + Z.of_nat (coord idx 2) + probe spec + 1) true;
  preprocessor_call := fun _ audio len =>
    (mkTensor [batch_size audio; 2%nat; 2%nat]
       (fun idx => item audio [coord idx 0; coord idx 2]) false, len);
  mpd_call := fun n y y_hat => ([y], [y_hat], [[y]], [[y_hat]]);
  msd_call := fun n y y_hat => ([y; y], [y_hat; y_hat], [[y]], [[y_hat]]);
  discriminator_loss := fun real gen => (probes real - probes gen, [], []);
  feature_loss := fun real gen => probes (concat real) - probes (concat gen);
  generator_loss := fun gen => (probes gen, []);
  l1_loss := fun a b => Z.abs (probe a - probe b);
  stft_patch := fun x _ _ _ =>
    mkTensor [batch_size x; n_bins; 3%nat; 2%nat]
      (fun idx =>
         match coord idx 3 with
         | 0%nat => item x [coord idx 0; coord idx 2] * (Z.of_nat (coord idx 1) + 1)
         | _ => 0
         end)
      (requires_grad x);
  torch_istft := fun comp _ _ _ =>
    mkTensor [batch_size comp; 3%nat]
      (fun idx => item comp [coord idx 0; 0%nat; coord idx 1; 0%nat])
      (requires_grad comp);
  zero_grad := fun _ n => n;
  manual_backward := fun loss _ n => n + loss;
  optim_step := fun _ n => n + 1;
  param_group_lr := fun _ _ => 0x1p-10%float;
  generator_parameters := fun _ => ["generator.conv_pre.weight"%string];
  mpd_parameters := ["mpd.discriminators.0.weight"%string];
  msd_parameters := ["msd.discriminators.0.weight"%string];
  isinstance_MelAudioDataset := fun o =>
    match obj_args o !! "_target_"%string with
    | Some (NStr s) => bool_decide (s = mel_target)
    | _ => false
    end;
  HAVE_WANDB := true;
  plot_spectrogram_to_numpy := fun t => shape t;
  r_to_index := Z.to_nat
|}.

(** A constant tensor of the given shape. *)
Definition full (shp : list nat) (v : Z) : Tensor Z := mkTensor shp (fun _ => v) false.

Definition preprocessor_cfg : DictConfig :=
  mkDict true (<["sample_rate"%string := NInt 22050]>
              (<["highfreq"%string := NInt 8000]>
              (<["nfilt"%string := NInt 80]> ∅))).

Definition cfg : ModelConfig :=
  mkModelConfig preprocessor_cfg (mkDict true ∅)
    (mkDict true (<["lr"%string := NFloat 0x1p-12%float]> ∅)) 1000 1%float.

Definition audio_dataset : Obj :=
  mkObj (<["_target_"%string := NStr "nemo.collections.tts.data.datalayers.AudioDataset"]> ∅).

Definition mel_dataset : Obj :=
  mkObj (<["_target_"%string := NStr mel_target]> ∅).

Definition loader (ds : Obj) : DataLoader :=
  mkDataLoader ds (<["batch_size"%string := NInt 3]> ∅).

(** A model trained on ground-truth mels and one fine-tuned on
    pre-computed mels, as [__init__] builds them. *)
Definition model (ds : Obj) : HifiGanModel Z :=
  match (__init__ cfg (Some (loader ds)) None).1 with
  | Ok m => m
  | Raise _ => mkHifiGanModel cfg (mkObj ∅) (mkObj ∅) (mkObj ∅) NNone None false
                 None None None None None None
  end.

Definition world (ds : Obj) : World := mkWorld (model ds) 0 0 true [].

(** The same models after [configure_optimizers]. *)
Definition configured (ds : Obj) : World := (configure_optimizers (world ds)).2.

(** Batches of 3 and of 2 clips of 4 samples. *)
Definition audio3 : Tensor Z := full [3%nat; 4%nat] 5.
Definition audio2 : Tensor Z := full [2%nat; 4%nat] 5.
Definition len3 : Tensor Z := full [3%nat] 4.
Definition len2 : Tensor Z := full [2%nat] 4.
Definition mel3 : Tensor Z := full [3%nat; 2%nat; 2%nat] 9.
Definition mel2 : Tensor Z := full [2%nat; 2%nat; 2%nat] 9.

(** The generator's prediction from a mel, with the initial state. *)
Definition pred (mel : Tensor Z) : Tensor Z := generator_call (mkObj ∅) 0 mel.

(** The bias a model in its initial state computes from a mel. *)
Definition bias_of (mel : Tensor Z) : Tensor Z :=
  match rbind (stft (pred (zeros_like mel))) (fun mp => first_frame mp.1) with
  | Ok b => b
  | Raise _ => full [] 0
  end.

(** The value of a call known to return. *)
Definition ok_or {A} (d : A) (r : Result A) : A :=
  match r with
  | Ok a => a
  | Raise _ => d
  end.

Definition squeezed (t : Tensor Z) : Tensor Z := ok_or (full [] 0) (squeeze 1 t).

(** The input extractor's mel of the three clips, and its lengths. *)
Definition input_mel3 : Tensor Z :=
  (preprocessor_call (audio_to_melspec_precessor (model audio_dataset)) audio3 len3).1.

Definition input_len3 : Tensor Z :=
  (preprocessor_call (audio_to_melspec_precessor (model audio_dataset)) audio3 len3).2.

(** The prediction from a mel as a model in its initial state denoises
    it, and the world that call leaves. *)
Definition denoised (ds : Obj) (mel : Tensor Z) : Tensor Z :=
  ok_or (full [] 0) (_bias_denoise (pred mel) mel (world ds)).1.

Definition after_denoise (ds : Obj) (mel : Tensor Z) : World :=
  (_bias_denoise (pred mel) mel (world ds)).2.

(** A data configuration in struct mode, with and without [shuffle]. *)
Definition data_cfg (params : gmap string Node) : DictConfig :=
  mkDict true
    (<["dataset"%string := NDict (mkDict true (<["_target_"%string := NStr mel_target]> ∅))]>
    (<["dataloader_params"%string := NDict (mkDict true params)]> ∅)).

Definition params_without_shuffle : gmap string Node := <["batch_size"%string := NInt 3]> ∅.

Definition params_with_shuffle : gmap string Node :=
  <["shuffle"%string := NBool false]> params_without_shuffle.

(** A mel of a single clip. *)
Definition mel1 : Tensor Z := full [1%nat; 2%nat; 2%nat] 9.

(** The samples last sent to the tracker in a trace. *)
Definition samples_of (evs : list Event) : list Media * list Media :=
  match last evs with
  | Some (ExperimentLog clips specs) => (clips, specs)
  | _ => ([], [])
  end.


(** Whether a trace ends with samples sent to the tracker. *)
Definition has_samples (evs : list Event) : bool :=
  match last evs with
  | Some (ExperimentLog _ _) => true
  | _ => false
  end.

End Toy.

(** * Properties *)

Section Proofs.
Context {R : Type} {SR : Scalar R} {FW : Framework R}.

#[local] Arguments bidx : simpl never.
#[local] Arguments broadcast_shapes : simpl never.

(** Runs the monad's plumbing. *)
Ltac run_m :=
  unfold bind, ret, lift, raise, get_self, get_net, get_world, set_self, set_net, emit, attr,
    assign, do_zero_grad, do_manual_backward, do_step, unpack2, unpack3; simpl.

(** ** What a method preserves *)

Lemma keeps_ret {A} P (a : A) : keeps P (ret a).
Proof. intros w Hw. exact Hw. Qed.

Lemma keeps_raise {A} P e : keeps P (raise (A:=A) e).
Proof. intros w Hw. exact Hw. Qed.

Lemma keeps_lift {A} P (r : Result A) : keeps P (lift r).
Proof. intros w Hw. exact Hw. Qed.

Lemma keeps_attr {A} P name (o : option A) : keeps P (attr name o).
Proof. destruct o; intros w Hw; exact Hw. Qed.

Lemma keeps_bind {A B} P (c : M A) (k : A -> M B) :
  keeps P c -> (forall a, keeps P (k a)) -> keeps P (bind c k).
Proof.
  intros Hc Hk w Hw. unfold bind.
  specialize (Hc w Hw). destruct (c w) as [[a|e] w1]; simpl in *.
  - now apply Hk.
  - exact Hc.
Qed.

Lemma keeps_get_self {B} P (k : HifiGanModel R -> M B) :
  (forall w0, P w0 -> keeps P (k (self w0))) -> keeps P (bind get_self k).
Proof. intros Hk w Hw. unfold bind, get_self. now apply (Hk w Hw w). Qed.

Lemma keeps_get_net {B} P (k : Net -> M B) :
  (forall n, keeps P (k n)) -> keeps P (bind get_net k).
Proof. intros Hk w Hw. unfold bind, get_net. now apply Hk. Qed.

Lemma keeps_get_world {B} P (k : World -> M B) :
  (forall w, keeps P (k w)) -> keeps P (bind get_world k).
Proof. intros Hk w Hw. unfold bind, get_world. now apply Hk. Qed.

Lemma keeps_set_net (P : World -> Prop) n :
  (forall w, P w -> P (mkWorld (self w) n (global_step w) (logger_is_wandb w) (events w))) ->
  keeps P (set_net n).
Proof. intros H w Hw. now apply H. Qed.

Lemma keeps_emit (P : World -> Prop) e :
  (forall w, P w ->
     P (mkWorld (self w) (net w) (global_step w) (logger_is_wandb w) (events w ++ [e]))) ->
  keeps P (emit e).
Proof. intros H w Hw. now apply H. Qed.

Lemma keeps_assign (P : World -> Prop) f :
  (forall w, P w ->
     P (mkWorld (f (self w)) (net w) (global_step w) (logger_is_wandb w) (events w))) ->
  keeps P (assign f).
Proof. intros H w Hw. unfold assign, bind, get_self, set_self. simpl. now apply H. Qed.

(** Walks through a method, one call at a time; what an assignment or a
    framework call does to the property is left as a goal. *)
Ltac keeps_step :=
  match goal with
  | |- keeps _ (bind get_self _) => apply keeps_get_self; intros ? ?
  | |- keeps _ (bind get_net _) => apply keeps_get_net; intros ?
  | |- keeps _ (bind get_world _) => apply keeps_get_world; intros ?
  | |- keeps _ (bind _ _) => apply keeps_bind; [| intros ?]
  | |- keeps _ (ret _) => apply keeps_ret
  | |- keeps _ (raise _) => apply keeps_raise
  | |- keeps _ (lift _) => apply keeps_lift
  | |- keeps _ (attr _ _) => apply keeps_attr
  | |- keeps _ (set_net _) => apply keeps_set_net; intros ? ?
  | |- keeps _ (emit _) => apply keeps_emit; intros ? ?
  | |- keeps _ (assign _) => apply keeps_assign; intros ? ?
  | |- keeps _ (match ?x with _ => _ end) => destruct x
  end.

Ltac keeps_auto := repeat keeps_step; try (simpl; assumption).

Lemma forward_keeps P spec : keeps P (forward spec).
Proof. unfold forward. keeps_auto. Qed.

Lemma convert_keeps P spec : keeps P (convert_spectrogram_to_audio spec).
Proof. unfold convert_spectrogram_to_audio. keeps_step; [apply forward_keeps | keeps_auto]. Qed.

Lemma training_step_keeps_self Q batch i o : keeps (of_self Q) (training_step batch i o).
Proof.
  unfold training_step, unpack2, unpack3, do_zero_grad, do_manual_backward, do_step.
  keeps_auto.
Qed.

Lemma setup_dataloader_keeps_self Q cfg sh name :
  keeps (of_self Q) (__setup_dataloader_from_config cfg sh name).
Proof. unfold __setup_dataloader_from_config. keeps_auto. Qed.

Lemma bias_denoise_keeps_bias b audio mel : keeps (bias_is b) (_bias_denoise audio mel).
Proof.
  unfold _bias_denoise. apply keeps_get_self. intros w0 Hw0. do 2 red in Hw0.
  rewrite Hw0. keeps_auto.
Qed.

Lemma bias_denoise_keeps_self Q audio mel :
  (forall m b, Q m -> Q (with_stft_bias b m)) ->
  keeps (of_self Q) (_bias_denoise audio mel).
Proof.
  intros HQ. unfold _bias_denoise, forward.
  repeat keeps_step; try (simpl; assumption); try (apply HQ; assumption).
Qed.

Lemma validation_step_keeps_self Q batch i :
  (forall audio mel, keeps (of_self Q) (_bias_denoise audio mel)) ->
  keeps (of_self Q) (validation_step batch i).
Proof.
  intros HQ. unfold validation_step, unpack2, unpack3.
  repeat first [ apply HQ | apply forward_keeps | keeps_step ]; try (simpl; assumption).
Qed.

Lemma setup_training_keeps_self Q cfg :
  (forall m dl, Q m -> Q (with_train_dl dl m)) ->
  keeps (of_self Q) (setup_training_data cfg).
Proof.
  intros HQ. unfold setup_training_data.
  repeat first [ apply setup_dataloader_keeps_self | keeps_step ]; now apply HQ.
Qed.

Lemma setup_validation_keeps_self Q cfg :
  (forall m dl, Q m -> Q (with_validation_dl dl m)) ->
  keeps (of_self Q) (setup_validation_data cfg).
Proof.
  intros HQ. unfold setup_validation_data.
  repeat first [ apply setup_dataloader_keeps_self | keeps_step ]; now apply HQ.
Qed.

Lemma configure_optimizers_keeps_self Q :
  (forall m o, Q m -> Q (with_optim_g o m)) ->
  (forall m o, Q m -> Q (with_optim_d o m)) ->
  (forall m s, Q m -> Q (with_scheduler_g s m)) ->
  (forall m s, Q m -> Q (with_scheduler_d s m)) ->
  keeps (of_self Q) configure_optimizers.
Proof.
  intros H1 H2 H3 H4. unfold configure_optimizers.
  repeat keeps_step; first [ now apply H1 | now apply H2 | now apply H3 | now apply H4 ].
Qed.

(** Every call leaves a property of [self] that no assignment of the
    call can break; [_bias_denoise] is the one method that assigns
    [stft_bias]. *)
Lemma run_op_keeps_self Q op :
  (forall m o, Q m -> Q (with_optim_g o m)) ->
  (forall m o, Q m -> Q (with_optim_d o m)) ->
  (forall m s, Q m -> Q (with_scheduler_g s m)) ->
  (forall m s, Q m -> Q (with_scheduler_d s m)) ->
  (forall m dl, Q m -> Q (with_train_dl dl m)) ->
  (forall m dl, Q m -> Q (with_validation_dl dl m)) ->
  (forall audio mel, keeps (of_self Q) (_bias_denoise audio mel)) ->
  forall w, of_self Q w -> of_self Q (run_op op w).
Proof.
  intros H1 H2 H3 H4 H5 H6 H7 w.
  destruct op; simpl;
    first [ done
          | now apply (configure_optimizers_keeps_self Q)
          | apply (training_step_keeps_self Q)
          | now apply (validation_step_keeps_self Q)
          | apply H7
          | now apply (setup_training_keeps_self Q)
          | now apply (setup_validation_keeps_self Q) ].
Qed.

Lemma run_op_keeps_bias b op w : bias_is b w -> bias_is b (run_op op w).
Proof.
  apply (run_op_keeps_self (fun m => stft_bias m = Some b)); try (intros; assumption).
  intros audio mel. apply bias_denoise_keeps_bias.
Qed.

Lemma run_ops_keeps_bias b ops : forall w, bias_is b w -> bias_is b (run_ops ops w).
Proof.
  induction ops as [|op ops IH]; intros w Hw; simpl; [done|].
  apply IH. now apply run_op_keeps_bias.
Qed.

Lemma run_op_keeps_setup c f op w : setup_is c f w -> setup_is c f (run_op op w).
Proof.
  apply (run_op_keeps_self (fun m => _cfg m = c /\ finetune m = f)); try (intros; assumption).
  intros audio mel. apply bias_denoise_keeps_self. intros; assumption.
Qed.

Lemma run_ops_keeps_setup c f ops : forall w, setup_is c f w -> setup_is c f (run_ops ops w).
Proof.
  induction ops as [|op ops IH]; intros w Hw; simpl; [done|].
  apply IH. now apply run_op_keeps_setup.
Qed.

Lemma bias_denoise_around audio mel w : around_self w (_bias_denoise audio mel w).2.
Proof.
  assert (H : keeps (around_self w) (_bias_denoise audio mel)).
  { unfold _bias_denoise, forward. keeps_auto. }
  apply H. repeat split.
Qed.

(** ** Shapes along the STFT pipeline *)

Lemma broadcast_same3 (B F T : nat) : broadcast_shapes [B; F; T] [B; F; T] = Some [B; F; T].
Proof. unfold broadcast_shapes. cbn. now rewrite !Nat.eqb_refl. Qed.

Lemma broadcast_frame3 (B F T : nat) :
  broadcast_shapes [B; F; T] [B; F; 1%nat] = Some [B; F; T].
Proof.
  unfold broadcast_shapes. cbn. rewrite !Nat.eqb_refl.
  destruct (T =? 1)%nat eqn:E; [apply Nat.eqb_eq in E; now subst|].
  reflexivity.
Qed.

Lemma broadcast_batch_mismatch (B B' F F' T : nat) :
  B <> B' -> B <> 1%nat -> B' <> 1%nat -> broadcast_shapes [B; F; T] [B'; F'; 1%nat] = None.
Proof.
  intros Hne H1 H1'. unfold broadcast_shapes. cbn.
  apply Nat.eqb_neq in Hne, H1, H1'. rewrite Hne, H1, H1'. cbn.
  now destruct (F =? F')%nat, (F =? 1)%nat, (F' =? 1)%nat.
Qed.

Lemma bcoord_in_range (d i : nat) : (i < d)%nat -> (if (d =? 1)%nat then 0%nat else i) = i.
Proof. intros Hi. destruct (d =? 1)%nat eqn:E; [apply Nat.eqb_eq in E; lia | reflexivity]. Qed.

Lemma bidx_in_range3 (B F T b f t : nat) :
  (b < B)%nat -> (f < F)%nat -> (t < T)%nat -> bidx [B; F; T] [b; f; t] = [b; f; t].
Proof. intros. unfold bidx. cbn. now rewrite !bcoord_in_range. Qed.

Lemma bidx_frame3 (B F b f t : nat) :
  (b < B)%nat -> (f < F)%nat -> bidx [B; F; 1%nat] [b; f; t] = [b; f; 0%nat].
Proof. intros. unfold bidx. cbn. now rewrite !bcoord_in_range. Qed.

(** [stft] of audio shaped [(B, 1, L)] whose transform is shaped
    [(B, F, T, 2)]: magnitude and phase of every bin. *)
Lemma stft_shapes x B L F T :
  shape x = [B; 1%nat; L] ->
  (forall xs, squeeze 1 x = Ok xs -> shape (stft_patch xs 1024 256 1024) = [B; F; T; 2%nat]) ->
  exists xs mags phase,
    squeeze 1 x = Ok xs /\
    shape xs = [B; L] /\
    stft x = Ok (mags, phase) /\
    shape mags = [B; F; T] /\ shape phase = [B; F; T] /\
    forall b f t, (b < B)%nat -> (f < F)%nat -> (t < T)%nat ->
      let re := item (stft_patch xs 1024 256 1024) [b; f; t; 0%nat] in
      let im := item (stft_patch xs 1024 256 1024) [b; f; t; 1%nat] in
      item mags [b; f; t] = r_sqrt (r_add (r_pow re 2) (r_pow im 2)) /\
      item phase [b; f; t] = r_atan2 im re.
Proof.
  intros Hx Hc.
  assert (Hsq : exists xs, squeeze 1 x = Ok xs /\ shape xs = [B; L]).
  { unfold squeeze. rewrite Hx. simpl. eexists. split; reflexivity. }
  destruct Hsq as (xs & Hsq & Hxs). specialize (Hc xs Hsq).
  unfold stft. rewrite Hsq. simpl.
  unfold select_last, select. rewrite Hc. simpl.
  unfold tbinop. simpl. rewrite broadcast_same3. simpl.
  eexists xs, _, _. split; [reflexivity|]. split; [exact Hxs|]. split; [reflexivity|].
  simpl. split; [reflexivity|]. split; [reflexivity|].
  intros b f t Hb Hf Ht. simpl.
  rewrite ?bidx_in_range3, ?bcoord_in_range by assumption. split; reflexivity.
Qed.

Lemma first_frame_shape (t : Tensor R) B F T :
  shape t = [B; F; S T] ->
  exists bias, first_frame t = Ok bias /\ shape bias = [B; F; 1%nat] /\
    forall b f k, item bias [b; f; k] = item t [b; f; 0%nat].
Proof.
  intros Ht. unfold first_frame, select. rewrite Ht. simpl.
  eexists. split; [reflexivity|]. split; reflexivity.
Qed.

(** ** The denoising bias *)

Lemma with_bias_same w bias : stft_bias (self w) = Some bias -> with_bias bias w = w.
Proof. destruct w as [[] ? ? ? ?]. simpl. intros ->. reflexivity. Qed.

(** A first call computes the bias, stores it, and goes on as a call on
    a model that holds it. *)
Lemma bias_denoise_first_unfold w audio mel mags ph bias :
  stft_bias (self w) = None ->
  stft (generator_call (generator (self w)) (net w) (zeros_like mel)) = Ok (mags, ph) ->
  first_frame mags = Ok bias ->
  _bias_denoise audio mel w = _bias_denoise audio mel (with_bias bias w).
Proof.
  intros Hnone Hst Hff. unfold _bias_denoise, forward. run_m.
  rewrite Hnone. simpl. rewrite Hst. simpl. rewrite Hff. simpl. reflexivity.
Qed.

(** The bias a model computes from a mel of batch size [B]. *)
Lemma computed_bias w mel B D T :
  generator_shape_law -> stft_shape_law ->
  shape mel = [B; D; T] ->
  exists mags ph bias,
    stft (generator_call (generator (self w)) (net w) (zeros_like mel)) = Ok (mags, ph) /\
    first_frame mags = Ok bias /\
    shape bias = [B; n_bins; 1%nat] /\
    forall b f k, item bias [b; f; k] = item mags [b; f; 0%nat].
Proof.
  intros Hg Hs Hmel.
  destruct (Hg (generator (self w)) (net w) (zeros_like mel) B D T Hmel) as [L HL].
  assert (Hsq : exists xs,
             squeeze 1 (generator_call (generator (self w)) (net w) (zeros_like mel)) = Ok xs
             /\ shape xs = [B; L]).
  { unfold squeeze. rewrite HL. simpl. eexists. split; reflexivity. }
  destruct Hsq as (xs & Hsq & Hxs).
  destruct (Hs xs B L Hxs) as [T0 HT0].
  destruct (stft_shapes _ B L n_bins (S T0) HL) as (xs' & mags & ph & _ & _ & Hst & Hm & _).
  { intros xs0 H0. rewrite Hsq in H0. injection H0 as <-. exact HT0. }
  destruct (first_frame_shape mags B n_bins T0 Hm) as (bias & Hff & Hsb & Hib).
  exists mags, ph, bias. auto.
Qed.

(** A call on a model that holds a bias of the audio's batch size. *)
Lemma bias_denoise_cached w audio mel bias B L F T xs :
  stft_bias (self w) = Some bias ->
  shape bias = [B; F; 1%nat] ->
  shape audio = [B; 1%nat; L] ->
  squeeze 1 audio = Ok xs ->
  shape (stft_patch xs 1024 256 1024) = [B; F; T; 2%nat] ->
  exists mags phase comp,
    stft audio = Ok (mags, phase) /\
    _bias_denoise audio mel w = (unsqueeze 1 (torch_istft comp 1024 256 1024), w) /\
    shape comp = [B; F; T; 2%nat] /\
    forall b f t, (b < B)%nat -> (f < F)%nat -> (t < T)%nat ->
      let mag :=
        r_max (r_sub (item mags [b; f; t])
                 (r_mul (item bias [b; f; 0%nat])
                    (r_of_float (denoise_strength (_cfg (self w))))))
          (r_of_float 0) in
      item comp [b; f; t; 0%nat] = r_mul mag (r_cos (item phase [b; f; t])) /\
      item comp [b; f; t; 1%nat] = r_mul mag (r_sin (item phase [b; f; t])).
Proof.
  intros Hbias Hsb Ha Hsq Hc.
  destruct (stft_shapes audio B L F T Ha) as (xs' & mags & phase & Hsq' & _ & Hst & Hm & Hp & _).
  { intros xs0 H0. rewrite Hsq in H0. injection H0 as <-. exact Hc. }
  exists mags, phase.
  unfold _bias_denoise. run_m. rewrite Hbias. simpl. rewrite Hst. simpl. rewrite Hbias. simpl.
  unfold tbinop at 1. simpl. rewrite Hm, Hsb, broadcast_frame3. simpl.
  unfold istft. unfold tbinop. simpl. rewrite Hp, broadcast_same3. simpl.
  unfold stack_last. simpl. rewrite bool_decide_eq_true_2 by reflexivity. simpl.
  eexists. split; [reflexivity|]. split.
  { destruct w; reflexivity. }
  split; [reflexivity|].
  intros b f t Hb Hf Ht. simpl.
  rewrite ?bidx_in_range3, ?bidx_frame3, ?bcoord_in_range by assumption. split; reflexivity.
Qed.

(** A call on a model that holds a bias of another batch size. *)
Lemma bias_denoise_mismatch w audio mel bias B B' L F F' T xs :
  stft_bias (self w) = Some bias ->
  shape bias = [B'; F'; 1%nat] ->
  shape audio = [B; 1%nat; L] ->
  squeeze 1 audio = Ok xs ->
  shape (stft_patch xs 1024 256 1024) = [B; F; T; 2%nat] ->
  B <> B' -> B <> 1%nat -> B' <> 1%nat ->
  _bias_denoise audio mel w =
    (Raise (RuntimeError "The size of tensor a must match the size of tensor b"), w).
Proof.
  intros Hbias Hsb Ha Hsq Hc Hne H1 H1'.
  destruct (stft_shapes audio B L F T Ha) as (xs' & mags & phase & Hsq' & _ & Hst & Hm & Hp & _).
  { intros xs0 H0. rewrite Hsq in H0. injection H0 as <-. exact Hc. }
  unfold _bias_denoise. run_m. rewrite Hbias. simpl. rewrite Hst. simpl. rewrite Hbias. simpl.
  unfold tbinop at 1. simpl. rewrite Hm, Hsb, broadcast_batch_mismatch by assumption.
  destruct w; reflexivity.
Qed.

Lemma init_bias_none cfg tdl vdl m evs :
  __init__ (R:=R) cfg tdl vdl = (Ok m, evs) -> stft_bias m = None.
Proof.
  unfold __init__. destruct (getattr _ _); [|discriminate].
  destruct tdl; [|discriminate]. intros [= <- _]. reflexivity.
Qed.

Lemma bias_denoise_first w audio mel mags ph bias :
  stft_bias (self w) = None ->
  stft (generator_call (generator (self w)) (net w) (zeros_like mel)) = Ok (mags, ph) ->
  first_frame mags = Ok bias ->
  stft_bias (self (_bias_denoise audio mel w).2) = Some bias.
Proof.
  intros Hnone Hst Hff. rewrite (bias_denoise_first_unfold w audio mel mags ph bias) by assumption.
  apply (bias_denoise_keeps_bias bias audio mel (with_bias bias w)). reflexivity.
Qed.

(** C1. The bias is [None] on a model just built; a first call of
    [_bias_denoise] stores the first STFT frame of the generator's output
    on the all-zeros mel (whatever happens later in that call); and once
    a bias is stored, no sequence of method calls and trainer updates,
    failed calls included, changes it or resets it. *)
Theorem stft_bias_memoized :
  (forall cfg tdl vdl (m : HifiGanModel R) evs,
     __init__ cfg tdl vdl = (Ok m, evs) -> stft_bias m = None) /\
  (forall w audio mel mags ph bias,
     stft_bias (self w) = None ->
     stft (generator_call (generator (self w)) (net w) (zeros_like mel)) = Ok (mags, ph) ->
     first_frame mags = Ok bias ->
     stft_bias (self (_bias_denoise audio mel w).2) = Some bias) /\
  (forall w bias ops,
     stft_bias (self w) = Some bias ->
     stft_bias (self (run_ops ops w)) = Some bias).
Proof.
  split; [|split].
  - intros cfg tdl vdl m evs. apply init_bias_none.
  - intros w audio mel mags ph bias. apply bias_denoise_first.
  - intros w bias ops Hw. now apply (run_ops_keeps_bias bias ops w).
Qed.

(** X1. On audio of the batch size of the bias, [_bias_denoise] returns the
    inverse STFT (1024, 256, 1024) of the audio's STFT with, in every
    bin, the magnitude lowered by [denoise_strength] times the bias of
    that frequency and clamped at 0, and the phase kept; the bias is the
    one the model holds, computed by this call when it holds none. *)
Theorem bias_denoise_spec w audio mel bias B L :
  generator_shape_law -> stft_shape_law -> istft_shape_law ->
  shape audio = [B; 1%nat; L] ->
  uses_bias w mel bias ->
  shape bias = [B; n_bins; 1%nat] ->
  exists T L' mags phase comp out,
    stft audio = Ok (mags, phase) /\
    shape mags = [B; n_bins; S T] /\ shape phase = [B; n_bins; S T] /\
    _bias_denoise audio mel w = (Ok out, with_bias bias w) /\
    shape comp = [B; n_bins; S T; 2%nat] /\
    (forall b f t, (b < B)%nat -> (f < n_bins)%nat -> (t < S T)%nat ->
       let mag :=
         r_max (r_sub (item mags [b; f; t])
                  (r_mul (item bias [b; f; 0%nat])
                     (r_of_float (denoise_strength (_cfg (self w))))))
           (r_of_float 0) in
       item comp [b; f; t; 0%nat] = r_mul mag (r_cos (item phase [b; f; t])) /\
       item comp [b; f; t; 1%nat] = r_mul mag (r_sin (item phase [b; f; t]))) /\
    shape out = [B; 1%nat; L'] /\
    forall b k, item out [b; 0%nat; k] = item (torch_istft comp 1024 256 1024) [b; k].
Proof.
  intros Hg Hs Hi Ha Hb Hsb.
  assert (Hsq : exists xs, squeeze 1 audio = Ok xs /\ shape xs = [B; L]).
  { unfold squeeze. rewrite Ha. simpl. eexists. split; reflexivity. }
  destruct Hsq as (xs & Hsq & Hxs).
  destruct (Hs xs B L Hxs) as [T HT].
  assert (Hrun : _bias_denoise audio mel w = _bias_denoise audio mel (with_bias bias w)).
  { unfold uses_bias in Hb. destruct (stft_bias (self w)) as [b0|] eqn:E.
    - subst b0. now rewrite with_bias_same.
    - destruct Hb as (mags0 & ph0 & Hst0 & Hff). now apply (bias_denoise_first_unfold _ _ _ mags0 ph0). }
  destruct (bias_denoise_cached (with_bias bias w) audio mel bias B L n_bins (S T) xs)
    as (mags & phase & comp & Hst & Hden & Hc & Hbins); try assumption; [reflexivity|].
  destruct (stft_shapes audio B L n_bins (S T) Ha) as (xs' & mags' & phase' & _ & _ & Hst' & Hm & Hp & _).
  { intros xs0 H0. rewrite Hsq in H0. injection H0 as <-. exact HT. }
  rewrite Hst in Hst'. injection Hst' as <- <-.
  destruct (Hi comp B (S T) Hc) as [L' HL'].
  exists T, L', mags, phase, comp.
  eexists. split; [exact Hst|]. split; [exact Hm|]. split; [exact Hp|].
  rewrite Hrun, Hden. unfold unsqueeze. rewrite HL'. simpl.
  split; [reflexivity|]. split; [exact Hc|]. split; [exact Hbins|].
  split; reflexivity.
Qed.

(** C2, where the code departs from it. A model that computed its bias
    from a mel of [B1] clips raises on audio of [B2] clips, for any two
    different batch sizes above 1: the bias keeps the batch dimension of
    the call that computed it, and the subtraction cannot broadcast. *)
Theorem bias_denoise_batch_change_raises w audio1 mel1 audio2 mel2 B1 B2 D T L :
  generator_shape_law -> stft_shape_law ->
  stft_bias (self w) = None ->
  shape mel1 = [B1; D; T] ->
  shape audio2 = [B2; 1%nat; L] ->
  B1 <> B2 -> B1 <> 1%nat -> B2 <> 1%nat ->
  let w1 := (_bias_denoise audio1 mel1 w).2 in
  exists bias,
    stft_bias (self w1) = Some bias /\
    shape bias = [B1; n_bins; 1%nat] /\
    _bias_denoise audio2 mel2 w1 =
      (Raise (RuntimeError "The size of tensor a must match the size of tensor b"), w1).
Proof.
  intros Hg Hs Hnone Hmel Ha Hne H1 H2 w1.
  destruct (computed_bias w mel1 B1 D T Hg Hs Hmel) as (mags & ph & bias & Hst & Hff & Hsb & _).
  assert (Hb1 : stft_bias (self w1) = Some bias) by now apply (bias_denoise_first w audio1 mel1 mags ph).
  exists bias. split; [exact Hb1|]. split; [exact Hsb|].
  assert (Hsq : exists xs, squeeze 1 audio2 = Ok xs /\ shape xs = [B2; L]).
  { unfold squeeze. rewrite Ha. simpl. eexists. split; reflexivity. }
  destruct Hsq as (xs & Hsq & Hxs).
  destruct (Hs xs B2 L Hxs) as [T2 HT2].
  apply (bias_denoise_mismatch w1 audio2 mel2 bias B2 B1 L n_bins n_bins (S T2) xs);
    auto.
Qed.

(** ** [training_step] *)

(** One pass through [training_step] on a batch that fits the model's
    mode, with both optimizers configured: every value is named as the
    source names it. *)
Lemma training_step_run w batch i o audio audio_len audio_mel audio_trg_mel trg_len
    audio_u pred_sq audio_pred_mel pred_len od og
    mpd_score_real mpd_score_gen mpd_fr mpd_fg loss_disc_mpd dr1 dg1
    msd_score_real msd_score_gen msd_fr msd_fg loss_disc_msd dr2 dg2
    mpd_r' mpd_score_gen' fmap_mpd_real fmap_mpd_gen
    msd_r' msd_score_gen' fmap_msd_real fmap_msd_gen
    loss_gen_mpd gl1 loss_gen_msd gl2 :
  let m := self w in
  let audio_pred := generator_call (generator m) (net w) audio_mel in
  let n1 := zero_grad od (net w) in
  let loss_d := r_add loss_disc_msd loss_disc_mpd in
  let n2 := zero_grad og (optim_step od (manual_backward loss_d od n1)) in
  let loss_mel := r_mul (l1_loss audio_pred_mel audio_trg_mel) (r_of_int 45) in
  let loss_fm_mpd := feature_loss fmap_mpd_real fmap_mpd_gen in
  let loss_fm_msd := feature_loss fmap_msd_real fmap_msd_gen in
  let loss_g :=
    r_add (r_add (r_add (r_add loss_gen_msd loss_gen_mpd) loss_fm_msd) loss_fm_mpd) loss_mel in
  let n3 := optim_step og (manual_backward loss_g og n2) in
  unpacks_to m batch audio audio_len audio_mel ->
  preprocessor_call (trg_melspec_fn m) audio audio_len = (audio_trg_mel, trg_len) ->
  unsqueeze 1 audio = Ok audio_u ->
  squeeze 1 audio_pred = Ok pred_sq ->
  preprocessor_call (trg_melspec_fn m) pred_sq audio_len = (audio_pred_mel, pred_len) ->
  optim_d m = Some od ->
  optim_g m = Some og ->
  mpd_call n1 audio_u (detach audio_pred) = (mpd_score_real, mpd_score_gen, mpd_fr, mpd_fg) ->
  discriminator_loss mpd_score_real mpd_score_gen = (loss_disc_mpd, dr1, dg1) ->
  msd_call n1 audio_u (detach audio_pred) = (msd_score_real, msd_score_gen, msd_fr, msd_fg) ->
  discriminator_loss msd_score_real msd_score_gen = (loss_disc_msd, dr2, dg2) ->
  mpd_call n2 audio_u audio_pred = (mpd_r', mpd_score_gen', fmap_mpd_real, fmap_mpd_gen) ->
  msd_call n2 audio_u audio_pred = (msd_r', msd_score_gen', fmap_msd_real, fmap_msd_gen) ->
  generator_loss mpd_score_gen' = (loss_gen_mpd, gl1) ->
  generator_loss msd_score_gen' = (loss_gen_msd, gl2) ->
  training_step batch i o w =
    (Ok tt,
     mkWorld m n3 (global_step w) (logger_is_wandb w)
       (events w ++
        [ZeroGrad od; ManualBackward loss_d od; OptimStep od;
         ZeroGrad og; ManualBackward loss_g og; OptimStep og;
         LogDict
           [("g_l1_loss"%string, MTensor loss_mel);
            ("g_loss_fm_mpd"%string, MTensor loss_fm_mpd);
            ("g_loss_fm_msd"%string, MTensor loss_fm_msd);
            ("g_loss_gen_mpd"%string, MTensor loss_gen_mpd);
            ("g_loss_gen_msd"%string, MTensor loss_gen_msd);
            ("g_loss"%string, MTensor loss_g);
            ("d_loss_mpd"%string, MTensor loss_disc_mpd);
            ("d_loss_msd"%string, MTensor loss_disc_msd);
            ("d_loss"%string, MTensor loss_d);
            ("global_step"%string, MInt (global_step w));
            ("lr"%string, MFloat (param_group_lr og n3))]])).
Proof.
  intros m audio_pred n1 loss_d n2 loss_mel loss_fm_mpd loss_fm_msd loss_g n3
    Hb Htrg Hu Hsq Hpm Hod Hog Hmpd Hdm Hmsd Hds Hmpd' Hmsd' Hgm Hgs.
  unfold training_step.
  destruct Hb as [[Hft ->] | (Hft & -> & ->)]; run_m; fold m; rewrite Hft; simpl.
  - rewrite Htrg, Hu. simpl. fold audio_pred. rewrite Hsq. simpl. rewrite Hpm, Hod. simpl.
    fold n1. rewrite Hmpd, Hdm, Hmsd, Hds. simpl. rewrite Hog. simpl.
    fold loss_d. fold n2. rewrite Hmpd', Hmsd', Hgm, Hgs.
    simpl. rewrite <- !app_assoc. reflexivity.
  - destruct (preprocessor_call (audio_to_melspec_precessor m) audio audio_len)
      as [mel ml] eqn:Hin.
    simpl in *. rewrite Htrg, Hu. simpl. fold audio_pred. rewrite Hsq. simpl.
    rewrite Hpm, Hod. simpl.
    fold n1. rewrite Hmpd, Hdm, Hmsd, Hds. simpl. rewrite Hog. simpl.
    fold loss_d. fold n2. rewrite Hmpd', Hmsd', Hgm, Hgs.
    simpl. rewrite <- !app_assoc. reflexivity.
Qed.

(** Whatever the outcome of a call, its events on the optimizers are the
    discriminator's update, then the generator's. *)
Lemma training_step_trace w batch i o :
  exists evs,
    events (training_step batch i o w).2 = events w ++ evs /\ step_trace evs.
Proof.
  unfold training_step. run_m.
  repeat match goal with
         | |- context [match ?x with _ => _ end] =>
             lazymatch x with
             | context [match _ with _ => _ end] => fail
             | _ => destruct x; simpl
             end
         end;
    try (exists []; split; [now rewrite app_nil_r | constructor]);
    rewrite <- ?app_assoc; simpl; eexists; (split; [reflexivity | constructor]).
Qed.

(** C3. In every call of [training_step] the optimizer calls come as the
    discriminator's update followed by the generator's (or stop short of
    it when the call raises); and in a call that goes through, the
    discriminator's [zero_grad], [manual_backward] and [step] are all made
    before the generator's [zero_grad], the loss sent backward for the
    discriminator being the multi-scale plus the multi-period
    discriminator loss, both computed on the detached prediction. *)
Theorem training_step_discriminator_first w batch i o :
  (exists evs,
     events (training_step batch i o w).2 = events w ++ evs /\ step_trace evs) /\
  forall audio audio_len audio_mel audio_u pred_sq od og,
    let m := self w in
    let audio_pred := generator_call (generator m) (net w) audio_mel in
    let n1 := zero_grad od (net w) in
    unpacks_to m batch audio audio_len audio_mel ->
    unsqueeze 1 audio = Ok audio_u ->
    squeeze 1 audio_pred = Ok pred_sq ->
    optim_d m = Some od ->
    optim_g m = Some og ->
    exists mpd_score_real mpd_score_gen mpd_fr mpd_fg loss_disc_mpd dr1 dg1
           msd_score_real msd_score_gen msd_fr msd_fg loss_disc_msd dr2 dg2
           loss_g metrics,
      mpd_call n1 audio_u (detach audio_pred) = (mpd_score_real, mpd_score_gen, mpd_fr, mpd_fg) /\
      discriminator_loss mpd_score_real mpd_score_gen = (loss_disc_mpd, dr1, dg1) /\
      msd_call n1 audio_u (detach audio_pred) = (msd_score_real, msd_score_gen, msd_fr, msd_fg) /\
      discriminator_loss msd_score_real msd_score_gen = (loss_disc_msd, dr2, dg2) /\
      requires_grad (detach audio_pred) = false /\
      shape (detach audio_pred) = shape audio_pred /\
      item (detach audio_pred) = item audio_pred /\
      (training_step batch i o w).1 = Ok tt /\
      events (training_step batch i o w).2 =
        events w
        ++ [ZeroGrad od; ManualBackward (r_add loss_disc_msd loss_disc_mpd) od; OptimStep od]
        ++ [ZeroGrad og; ManualBackward loss_g og; OptimStep og]
        ++ [LogDict metrics].
Proof.
  split; [apply training_step_trace|].
  intros audio audio_len audio_mel audio_u pred_sq od og m audio_pred n1 Hb Hu Hsq Hod Hog.
  destruct (preprocessor_call (trg_melspec_fn m) audio audio_len) as [trg tl] eqn:Htrg.
  destruct (preprocessor_call (trg_melspec_fn m) pred_sq audio_len) as [pm pl] eqn:Hpm.
  destruct (mpd_call n1 audio_u (detach audio_pred)) as [[[mr mg] mfr] mfg] eqn:Hmpd.
  destruct (discriminator_loss mr mg) as [[ldm dr1] dg1] eqn:Hdm.
  destruct (msd_call n1 audio_u (detach audio_pred)) as [[[sr sg] sfr] sfg] eqn:Hmsd.
  destruct (discriminator_loss sr sg) as [[lds dr2] dg2] eqn:Hds.
  set (n2 := zero_grad og (optim_step od (manual_backward (r_add lds ldm) od n1))).
  destruct (mpd_call n2 audio_u audio_pred) as [[[mr' mg'] mfr'] mfg'] eqn:Hmpd'.
  destruct (msd_call n2 audio_u audio_pred) as [[[sr' sg'] sfr'] sfg'] eqn:Hmsd'.
  destruct (generator_loss mg') as [lgm gl1] eqn:Hgm.
  destruct (generator_loss sg') as [lgs gl2] eqn:Hgs.
  rewrite (training_step_run w batch i o audio audio_len audio_mel trg tl audio_u pred_sq pm pl
             od og mr mg mfr mfg ldm dr1 dg1 sr sg sfr sfg lds dr2 dg2
             mr' mg' mfr' mfg' sr' sg' sfr' sfg' lgm gl1 lgs gl2) by assumption.
  simpl. do 16 eexists. repeat (split; [first [reflexivity | eassumption]|]). reflexivity.
Qed.

(** C4. In a call of [training_step] that goes through, the loss sent
    backward for the generator, also logged as ["g_loss"], is the sum, in
    this order, of the multi-scale and multi-period adversarial losses,
    the multi-scale and multi-period feature-matching losses, and 45
    times the L1 loss between the mel of the prediction and the mel of
    the target audio, both taken by [trg_melspec_fn]. *)
Theorem training_step_generator_loss w batch i o audio audio_len audio_mel audio_u pred_sq
    od og :
  let m := self w in
  let audio_pred := generator_call (generator m) (net w) audio_mel in
  unpacks_to m batch audio audio_len audio_mel ->
  unsqueeze 1 audio = Ok audio_u ->
  squeeze 1 audio_pred = Ok pred_sq ->
  optim_d m = Some od ->
  optim_g m = Some og ->
  exists n2 loss_d audio_trg_mel trg_len audio_pred_mel pred_len
         mpd_r mpd_score_gen fmap_mpd_real fmap_mpd_gen
         msd_r msd_score_gen fmap_msd_real fmap_msd_gen
         loss_gen_mpd gl1 loss_gen_msd gl2 metrics,
    preprocessor_call (trg_melspec_fn m) audio audio_len = (audio_trg_mel, trg_len) /\
    preprocessor_call (trg_melspec_fn m) pred_sq audio_len = (audio_pred_mel, pred_len) /\
    mpd_call n2 audio_u audio_pred = (mpd_r, mpd_score_gen, fmap_mpd_real, fmap_mpd_gen) /\
    msd_call n2 audio_u audio_pred = (msd_r, msd_score_gen, fmap_msd_real, fmap_msd_gen) /\
    generator_loss mpd_score_gen = (loss_gen_mpd, gl1) /\
    generator_loss msd_score_gen = (loss_gen_msd, gl2) /\
    let loss_g :=
      r_add
        (r_add
           (r_add (r_add loss_gen_msd loss_gen_mpd) (feature_loss fmap_msd_real fmap_msd_gen))
           (feature_loss fmap_mpd_real fmap_mpd_gen))
        (r_mul (l1_loss audio_pred_mel audio_trg_mel) (r_of_int 45)) in
    (training_step batch i o w).1 = Ok tt /\
    events (training_step batch i o w).2 =
      events w
      ++ [ZeroGrad od; ManualBackward loss_d od; OptimStep od;
          ZeroGrad og; ManualBackward loss_g og; OptimStep og; LogDict metrics] /\
    In ("g_loss"%string, MTensor loss_g) metrics /\
    In ("g_l1_loss"%string, MTensor (r_mul (l1_loss audio_pred_mel audio_trg_mel) (r_of_int 45)))
      metrics.
Proof.
  intros m audio_pred Hb Hu Hsq Hod Hog.
  set (n1 := zero_grad od (net w)).
  destruct (preprocessor_call (trg_melspec_fn m) audio audio_len) as [trg tl] eqn:Htrg.
  destruct (preprocessor_call (trg_melspec_fn m) pred_sq audio_len) as [pm pl] eqn:Hpm.
  destruct (mpd_call n1 audio_u (detach audio_pred)) as [[[mr mg] mfr] mfg] eqn:Hmpd.
  destruct (discriminator_loss mr mg) as [[ldm dr1] dg1] eqn:Hdm.
  destruct (msd_call n1 audio_u (detach audio_pred)) as [[[sr sg] sfr] sfg] eqn:Hmsd.
  destruct (discriminator_loss sr sg) as [[lds dr2] dg2] eqn:Hds.
  set (n2 := zero_grad og (optim_step od (manual_backward (r_add lds ldm) od n1))).
  destruct (mpd_call n2 audio_u audio_pred) as [[[mr' mg'] mfr'] mfg'] eqn:Hmpd'.
  destruct (msd_call n2 audio_u audio_pred) as [[[sr' sg'] sfr'] sfg'] eqn:Hmsd'.
  destruct (generator_loss mg') as [lgm gl1] eqn:Hgm.
  destruct (generator_loss sg') as [lgs gl2] eqn:Hgs.
  rewrite (training_step_run w batch i o audio audio_len audio_mel trg tl audio_u pred_sq pm pl
             od og mr mg mfr mfg ldm dr1 dg1 sr sg sfr sfg lds dr2 dg2
             mr' mg' mfr' mfg' sr' sg' sfr' sfg' lgm gl1 lgs gl2) by assumption.
  exists n2, (r_add lds ldm), trg, tl, pm, pl, mr', mg', mfr', mfg', sr', sg', sfr', sfg',
    lgm, gl1, lgs, gl2.
  eexists. split; [reflexivity|]. split; [reflexivity|].
  split; [exact Hmpd'|]. split; [exact Hmsd'|]. split; [exact Hgm|]. split; [exact Hgs|].
  simpl. split; [reflexivity|]. split; [reflexivity|].
  split; [do 5 right; left; reflexivity | left; reflexivity].
Qed.

(** ** Construction and optimizers *)

(** C5. A model is built as soon as the preprocessor configuration gives
    a sample rate and a training loader is there; its input extractor is
    instantiated from the preprocessor configuration as it is, and its
    target extractor from the same configuration with [highfreq] set to
    [None] and [use_grads] to [True], every other entry unchanged. *)
Theorem init_extractors (cfg : ModelConfig) (dl : DataLoader) (vdl : option DataLoader)
    (sr : Node) :
  getattr (preprocessor cfg) "sample_rate" = Ok sr ->
  exists m evs,
    __init__ (R:=R) cfg (Some dl) vdl = (Ok m, evs) /\
    obj_args (audio_to_melspec_precessor m) = content (preprocessor cfg) /\
    obj_args (trg_melspec_fn m) !! "highfreq" = Some NNone /\
    obj_args (trg_melspec_fn m) !! "use_grads" = Some (NBool true) /\
    forall key, key <> "highfreq"%string -> key <> "use_grads"%string ->
      obj_args (trg_melspec_fn m) !! key = content (preprocessor cfg) !! key.
Proof.
  intros Hsr. unfold __init__. rewrite Hsr.
  eexists _, _. split; [reflexivity|]. simpl.
  split; [reflexivity|]. split; [apply lookup_insert_eq|].
  split; [rewrite lookup_insert_ne by done; apply lookup_insert_eq|].
  intros key H1 H2. now rewrite !lookup_insert_ne by done.
Qed.

Lemma configure_optimizers_run (w : World) :
  let m := self w in
  let og := instantiate (optim (_cfg m))
              [("params"%string, NIter (generator_parameters (generator m)))] in
  let od := instantiate (optim (_cfg m))
              [("params"%string, NIter (msd_parameters ++ mpd_parameters))] in
  let warmup :=
    if finetune m then PyInt 0
    else PyFloat (np_ceil (0.2 * float_of_int (max_steps (_cfg m)))%float) in
  let sg := mkCosineAnnealing og (max_steps (_cfg m)) 1e-5%float (Some warmup) in
  let sd := mkCosineAnnealing od (max_steps (_cfg m)) 1e-5%float None in
  configure_optimizers w =
    (Ok ([og; od], [mkSchedulerDict sg "step"; mkSchedulerDict sd "step"]),
     mkWorld
       (with_scheduler_d sd (with_scheduler_g sg (with_optim_d od (with_optim_g og m))))
       (net w) (global_step w) (logger_is_wandb w) (events w)).
Proof. reflexivity. Qed.

Lemma instantiate_params (cfg : DictConfig) (ps : list Param) :
  obj_args (instantiate cfg [("params"%string, NIter ps)]) !! "params" = Some (NIter ps) /\
  forall key, key <> "params"%string ->
    obj_args (instantiate cfg [("params"%string, NIter ps)]) !! key = content cfg !! key.
Proof.
  simpl. split; [apply lookup_insert_eq|]. intros key Hk. now rewrite lookup_insert_ne by done.
Qed.

(** C7. [configure_optimizers] returns two optimizers and two scheduler
    dictionaries: the first optimizer is instantiated from [cfg.optim]
    over the generator's parameters, the second over the multi-scale
    discriminator's parameters followed by the multi-period one's; each
    dictionary pairs the optimizer of the same position with a
    [CosineAnnealing] scheduler stepped per training step, with
    [min_lr = 1e-5] and the configuration's [max_steps]. *)
Theorem configure_optimizers_returns (w : World) :
  exists og od sg sd w',
    configure_optimizers w =
      (Ok ([og; od], [mkSchedulerDict sg "step"; mkSchedulerDict sd "step"]), w') /\
    obj_args og !! "params" = Some (NIter (generator_parameters (generator (self w)))) /\
    obj_args od !! "params" = Some (NIter (msd_parameters ++ mpd_parameters)) /\
    (forall key, key <> "params"%string ->
       obj_args og !! key = content (optim (_cfg (self w))) !! key /\
       obj_args od !! key = content (optim (_cfg (self w))) !! key) /\
    sched_optimizer sg = og /\ sched_optimizer sd = od /\
    sched_min_lr sg = 1e-5%float /\ sched_min_lr sd = 1e-5%float /\
    sched_max_steps sg = max_steps (_cfg (self w)) /\
    sched_max_steps sd = max_steps (_cfg (self w)) /\
    optim_g (self w') = Some og /\ optim_d (self w') = Some od /\
    scheduler_g (self w') = Some sg /\ scheduler_d (self w') = Some sd.
Proof.
  rewrite configure_optimizers_run. do 5 eexists. split; [reflexivity|].
  split; [apply instantiate_params|]. split; [apply instantiate_params|].
  split; [intros key Hk; split; now apply instantiate_params|].
  simpl. repeat split.
Qed.

Lemma init_setup cfg dl vdl m evs :
  __init__ (R:=R) cfg (Some dl) vdl = (Ok m, evs) ->
  _cfg m = cfg /\ finetune m = isinstance_MelAudioDataset (dataset dl) /\
  evs = [Logging INFO (if finetune m then MsgFineTuning else MsgGroundTruth)].
Proof.
  unfold __init__. destruct (getattr _ _); [|discriminate].
  intros [= <- <-]. auto.
Qed.

(** C9. The training mode is the one found at construction (whether the
    training dataset is a [MelAudioDataset]) whatever is called on the
    model afterwards; whenever [configure_optimizers] then runs, the
    generator's scheduler is given [warmup_steps = 0] in fine-tuning mode
    and [np.ceil(0.2 * max_steps)] otherwise, and the discriminator's
    scheduler is given no [warmup_steps], hence has no warmup phase. *)
Theorem generator_warmup_by_mode cfg dl vdl m evs w ops :
  __init__ (R:=R) cfg (Some dl) vdl = (Ok m, evs) ->
  self w = m ->
  exists og od sg sd w',
    configure_optimizers (run_ops ops w) =
      (Ok ([og; od], [mkSchedulerDict sg "step"; mkSchedulerDict sd "step"]), w') /\
    finetune (self (run_ops ops w)) = isinstance_MelAudioDataset (dataset dl) /\
    warmup_length sg =
      (if isinstance_MelAudioDataset (dataset dl) then PyInt 0
       else PyFloat (np_ceil (0.2 * float_of_int (max_steps cfg))%float)) /\
    sched_warmup_steps sd = None /\
    warmup_length sd = PyInt 0.
Proof.
  intros Hinit Hself. destruct (init_setup _ _ _ _ _ Hinit) as (Hcfg & Hft & _).
  destruct (run_ops_keeps_setup cfg (finetune m) ops w) as [Hc Hf].
  { red. red. now rewrite Hself. }
  rewrite configure_optimizers_run. do 5 eexists. split; [reflexivity|].
  rewrite Hf, Hc, Hft. split; [reflexivity|]. unfold warmup_length. simpl.
  split; [|split; reflexivity].
  now destruct (isinstance_MelAudioDataset (dataset dl)).
Qed.

(** C10. When the generator's output is shaped (batch, 1, time), as the
    declared output type of [forward] says, [convert_spectrogram_to_audio]
    returns [forward]'s output with dimension 1 squeezed out: the same
    values, shaped (batch, time). *)
Theorem convert_squeezes_forward w spec B T :
  shape (generator_call (generator (self w)) (net w) spec) = [B; 1%nat; T] ->
  exists fwd out,
    forward spec w = (Ok fwd, w) /\
    convert_spectrogram_to_audio spec w = (Ok out, w) /\
    squeeze 1 fwd = Ok out /\
    shape fwd = [B; 1%nat; T] /\
    shape out = [B; T] /\
    forall b t, item out [b; t] = item fwd [b; 0%nat; t].
Proof.
  intros Hs. eexists _, _. split; [reflexivity|].
  unfold convert_spectrogram_to_audio, forward, squeeze. run_m. rewrite Hs. simpl.
  repeat (split; [first [reflexivity | exact Hs]|]). auto.
Qed.

(** ** [validation_step] *)

(** A validation step whose denoising and squeezes go through: what is
    left is the logging and, once per epoch, the plots. *)
Lemma validation_step_tail w w1 batch batch_idx audio audio_len audio_mel audio_mel_len
    den pred_denoised pred_sq :
  let m := self w in
  let audio_pred := generator_call (generator m) (net w) audio_mel in
  let pred_denoised_mel :=
    (preprocessor_call (audio_to_melspec_precessor m) pred_denoised audio_len).1 in
  let audio_pred_mel :=
    (preprocessor_call (audio_to_melspec_precessor m) pred_sq audio_len).1 in
  let loss_mel := l1_loss audio_mel audio_pred_mel in
  let gt_mel :=
    if finetune m
    then Some (preprocessor_call (audio_to_melspec_precessor m) audio audio_len).1
    else None in
  validation_inputs m batch audio audio_len audio_mel audio_mel_len ->
  _bias_denoise audio_pred audio_mel w = (Ok den, w1) ->
  squeeze 1 den = Ok pred_denoised ->
  squeeze 1 audio_pred = Ok pred_sq ->
  events w1 = events w /\
  validation_step batch batch_idx w =
    if (batch_idx =? 0) && logger_is_wandb w && HAVE_WANDB then
      match size audio 0 with
      | Ok count =>
          match media_loop
                  (media_of (sample_rate m) audio audio_len audio_pred pred_denoised
                     audio_mel audio_pred_mel pred_denoised_mel gt_mel audio_mel_len)
                  (seq 0 (Nat.min 5 count)) [] [] with
          | Ok (clips, specs) =>
              (Ok tt, logged w1 [Log "val_loss" loss_mel; ExperimentLog clips specs])
          | Raise e => (Raise e, logged w1 [Log "val_loss" loss_mel])
          end
      | Raise e => (Raise e, logged w1 [Log "val_loss" loss_mel])
      end
    else (Ok tt, logged w1 [Log "val_loss" loss_mel]).
Proof.
  intros m audio_pred pred_denoised_mel audio_pred_mel loss_mel gt_mel Hin Hden Hsq1 Hsq2.
  destruct (bias_denoise_around audio_pred audio_mel w) as (Hn & Hg & Hl & He).
  rewrite Hden in Hn, Hg, Hl, He. simpl in Hn, Hg, Hl, He.
  split; [exact He|]. rewrite <- Hl.
  subst pred_denoised_mel audio_pred_mel loss_mel gt_mel audio_pred m.
  destruct (preprocessor_call (audio_to_melspec_precessor (self w)) pred_denoised audio_len)
    as [pdm dl] eqn:Hdm.
  destruct (preprocessor_call (audio_to_melspec_precessor (self w)) pred_sq audio_len)
    as [apm pl] eqn:Hpm.
  unfold validation_step, forward, logged.
  destruct Hin as [(Hft & -> & frames & count & Hf & Hc & ->) | (Hft & -> & len & Hpre & ->)];
    run_m; rewrite Hft; simpl.
  - rewrite Hf, Hc. simpl.
    rewrite Hden. simpl. rewrite Hsq1. simpl. rewrite Hdm. rewrite Hsq2. simpl. rewrite Hpm.
    destruct ((batch_idx =? 0) && logger_is_wandb w1 && HAVE_WANDB); [|reflexivity].
    destruct (size audio 0); [|reflexivity]. simpl.
    destruct (media_loop _ _ _ _) as [[c s]|]; [|reflexivity].
    simpl. now rewrite <- app_assoc.
  - rewrite Hpre. simpl.
    rewrite Hden. simpl. rewrite Hsq1. simpl. rewrite Hdm. rewrite Hsq2. simpl. rewrite Hpm.
    destruct ((batch_idx =? 0) && logger_is_wandb w1 && HAVE_WANDB); [|reflexivity].
    destruct (size audio 0); [|reflexivity]. simpl.
    destruct (media_loop _ _ _ _) as [[c s]|]; [|reflexivity].
    simpl. now rewrite <- app_assoc.
Qed.

(** C6, as the code has it. On a validation batch whose denoising goes
    through, [validation_step] logs under ["val_loss"] the unscaled L1
    loss between the mel fed to the generator and the mel the input
    extractor takes of the predicted audio; the mel fed to the generator
    is the input extractor's mel of the batch's audio when training on
    ground-truth mels, and the batch's own pre-computed mel when
    fine-tuning. Nothing else is logged unless [batch_idx] is 0, the
    logger is a [WandbLogger] and wandb was imported; then the samples
    are sent to the tracker once, if building them does not raise. *)
Theorem validation_step_logs_val_loss w w1 batch batch_idx audio audio_len audio_mel
    audio_mel_len den pred_denoised pred_sq :
  let m := self w in
  let audio_pred := generator_call (generator m) (net w) audio_mel in
  let audio_pred_mel :=
    (preprocessor_call (audio_to_melspec_precessor m) pred_sq audio_len).1 in
  let loss_mel := l1_loss audio_mel audio_pred_mel in
  let plots := (batch_idx =? 0) && logger_is_wandb w && HAVE_WANDB in
  validation_inputs m batch audio audio_len audio_mel audio_mel_len ->
  _bias_denoise audio_pred audio_mel w = (Ok den, w1) ->
  squeeze 1 den = Ok pred_denoised ->
  squeeze 1 audio_pred = Ok pred_sq ->
  (finetune m = false ->
   audio_mel = (preprocessor_call (audio_to_melspec_precessor m) audio audio_len).1) /\
  (finetune m = true -> batch = MelAudioBatch audio audio_len audio_mel) /\
  exists r rest,
    validation_step batch batch_idx w = (r, logged w1 (Log "val_loss" loss_mel :: rest)) /\
    events (validation_step batch batch_idx w).2 =
      events w ++ Log "val_loss" loss_mel :: rest /\
    (plots = false -> r = Ok tt /\ rest = []) /\
    (plots = true ->
     (exists clips specs, r = Ok tt /\ rest = [ExperimentLog clips specs]) \/
     (exists e, r = Raise e /\ rest = [])).
Proof.
  intros m audio_pred audio_pred_mel loss_mel plots Hin Hden Hsq1 Hsq2.
  split; [|split].
  - intros Hft. destruct Hin as [(Hft' & _) | (_ & _ & len & Hpre & _)]; [congruence|].
    now rewrite Hpre.
  - intros Hft. destruct Hin as [(_ & Hb & _) | (Hft' & _)]; [exact Hb | congruence].
  - destruct (validation_step_tail w w1 batch batch_idx audio audio_len audio_mel audio_mel_len
                den pred_denoised pred_sq Hin Hden Hsq1 Hsq2) as [He Hrun].
    fold m audio_pred audio_pred_mel loss_mel plots in Hrun. rewrite Hrun.
    destruct plots.
    + destruct (size audio 0) as [count|e].
      * destruct (media_loop _ _ _ _) as [[clips specs]|e].
        -- eexists _, _. split; [reflexivity|]. simpl. rewrite He.
           split; [reflexivity|]. split; [discriminate|]. intros _. left. eauto.
        -- eexists _, _. split; [reflexivity|]. simpl. rewrite He.
           split; [reflexivity|]. split; [discriminate|]. intros _. right. eauto.
      * eexists _, _. split; [reflexivity|]. simpl. rewrite He.
        split; [reflexivity|]. split; [discriminate|]. intros _. right. eauto.
    + eexists _, _. split; [reflexivity|]. simpl. rewrite He.
      split; [reflexivity|]. split; [auto|discriminate].
Qed.

(** ** Data loaders *)





(** C8, where the code departs from it. Setting up the validation data
    from a configuration in struct mode whose [dataloader_params] has no
    [shuffle] entry raises [AttributeError]: [shuffle] is read without the
    membership test the training branch makes first. *)
Theorem setup_validation_missing_shuffle_raises cfg ds params w :
  content cfg !! "dataset" = Some (NDict ds) ->
  content cfg !! "dataloader_params" = Some (NDict params) ->
  content params !! "shuffle" = None ->
  struct_flag params = true ->
  setup_validation_data cfg w = (Raise (AttributeError "shuffle"), w).
Proof.
  intros Hds Hp Hs Hstruct. unfold setup_validation_data, __setup_dataloader_from_config.
  rewrite Hds, Hp. unfold getattr. run_m. rewrite Hs, Hstruct. now destruct w.
Qed.

(** ** Construction: when it fails *)


(** ** Optimizers through the life of a model *)

Lemma configure_optimizers_sets (w : World) :
  of_self (optimizers_of (_cfg (self w)) (generator (self w))) (configure_optimizers w).2.
Proof. rewrite configure_optimizers_run. repeat split. Qed.

Lemma configure_optimizers_keeps_optimizers c g :
  keeps (of_self (optimizers_of c g)) configure_optimizers.
Proof.
  intros w (Hc & Hg & _ & _). rewrite configure_optimizers_run.
  unfold of_self, optimizers_of. simpl. rewrite Hc, Hg. repeat split.
Qed.

Lemma run_op_keeps_optimizers c g op w :
  of_self (optimizers_of c g) w -> of_self (optimizers_of c g) (run_op op w).
Proof.
  destruct op; simpl;
    first [ done
          | apply configure_optimizers_keeps_optimizers
          | apply (training_step_keeps_self (optimizers_of c g))
          | apply (validation_step_keeps_self (optimizers_of c g)); intros audio0 mel0;
            apply bias_denoise_keeps_self; intros; assumption
          | apply bias_denoise_keeps_self; intros; assumption
          | apply (setup_training_keeps_self (optimizers_of c g)); intros; assumption
          | apply (setup_validation_keeps_self (optimizers_of c g)); intros; assumption ].
Qed.

Lemma run_ops_keeps_optimizers c g ops :
  forall w, of_self (optimizers_of c g) w -> of_self (optimizers_of c g) (run_ops ops w).
Proof.
  induction ops as [|op ops IH]; intros w Hw; simpl; [done|].
  apply IH. now apply run_op_keeps_optimizers.
Qed.

(** Destructs the calls a method's outcome hangs on, innermost first. *)
Ltac split_calls :=
  repeat match goal with
         | |- context [match ?x with _ => _ end] =>
             lazymatch x with
             | context [match _ with _ => _ end] => fail
             | _ => destruct x; simpl
             end
         end.

(** X6. Before [configure_optimizers] has run, [training_step] trains
    nothing: whatever the batch, it raises and leaves the model, the
    trainable state and the trace as they were; on a batch that fits the
    model's mode the exception is the [AttributeError] of reading
    [self.optim_d]. *)
Theorem training_step_before_configure w batch i o :
  optim_d (self w) = None ->
  (exists e, training_step batch i o w = (Raise e, w)) /\
  forall audio audio_len audio_mel audio_u pred_sq,
    unpacks_to (self w) batch audio audio_len audio_mel ->
    unsqueeze 1 audio = Ok audio_u ->
    squeeze 1 (generator_call (generator (self w)) (net w) audio_mel) = Ok pred_sq ->
    training_step batch i o w = (Raise (AttributeError "optim_d"), w).
Proof.
  intros Hod. split.
  - unfold training_step. run_m. rewrite ?Hod.
    repeat match goal with
           | |- context [match ?x with _ => _ end] =>
               lazymatch x with
               | context [match _ with _ => _ end] => fail
               | _ => destruct x; simpl; rewrite ?Hod; simpl
               end
           end;
      destruct w; eexists; reflexivity.
  - intros audio audio_len audio_mel audio_u pred_sq Hb Hu Hsq.
    unfold training_step.
    destruct Hb as [[Hft ->] | (Hft & -> & ->)]; run_m; rewrite Hft; simpl.
    + destruct (preprocessor_call (trg_melspec_fn (self w)) audio audio_len) as [trg tl].
      rewrite Hu. simpl. rewrite Hsq. simpl.
      destruct (preprocessor_call (trg_melspec_fn (self w)) pred_sq audio_len) as [pm pl].
      rewrite Hod. now destruct w.
    + destruct (preprocessor_call (audio_to_melspec_precessor (self w)) audio audio_len)
        as [mel ml].
      simpl in *.
      destruct (preprocessor_call (trg_melspec_fn (self w)) audio audio_len) as [trg tl].
      rewrite Hu. simpl. rewrite Hsq. simpl.
      destruct (preprocessor_call (trg_melspec_fn (self w)) pred_sq audio_len) as [pm pl].
      rewrite Hod. now destruct w.
Qed.

(** X7. Once [configure_optimizers] has run, whatever is called on the
    model afterwards, the model holds the two optimizers built from
    [cfg.optim]; a training step on a batch that fits the model's mode,
    with [(B, L)] audio and a [(B, D, T)] mel, then goes through: the
    discriminators' parameters are updated through the second optimizer,
    then the generator's through the first, and the metrics are logged. *)
Theorem training_step_after_configure w ops batch i o audio audio_len audio_mel B L D T :
  generator_shape_law ->
  let w1 := run_ops ops (configure_optimizers w).2 in
  let od := discriminator_optimizer (_cfg (self w)) in
  let og := generator_optimizer (_cfg (self w)) (generator (self w)) in
  unpacks_to (self w1) batch audio audio_len audio_mel ->
  shape audio = [B; L] ->
  shape audio_mel = [B; D; T] ->
  optim_d (self w1) = Some od /\ optim_g (self w1) = Some og /\
  obj_args od !! "params" = Some (NIter (msd_parameters ++ mpd_parameters)) /\
  obj_args og !! "params" = Some (NIter (generator_parameters (generator (self w1)))) /\
  exists loss_d loss_g metrics,
    (training_step batch i o w1).1 = Ok tt /\
    self (training_step batch i o w1).2 = self w1 /\
    events (training_step batch i o w1).2 =
      events w1 ++ [ZeroGrad od; ManualBackward loss_d od; OptimStep od;
                    ZeroGrad og; ManualBackward loss_g og; OptimStep og;
                    LogDict metrics].
Proof.
  intros Hg w1 od og Hb Ha Hmel.
  destruct (run_ops_keeps_optimizers _ _ ops _ (configure_optimizers_sets w))
    as (Hc & Hgen & Hog & Hod).
  fold w1 in Hc, Hgen, Hog, Hod. fold od in Hod. fold og in Hog.
  split; [exact Hod|]. split; [exact Hog|].
  split; [apply instantiate_params|]. split; [rewrite Hgen; apply instantiate_params|].
  assert (Hu : exists audio_u, unsqueeze 1 audio = Ok audio_u).
  { unfold unsqueeze. rewrite Ha. simpl. now eexists. }
  destruct Hu as [audio_u Hu].
  set (audio_pred := generator_call (generator (self w1)) (net w1) audio_mel).
  assert (Hsq : exists pred_sq, squeeze 1 audio_pred = Ok pred_sq).
  { destruct (Hg (generator (self w1)) (net w1) audio_mel B D T Hmel) as [L' HL'].
    unfold squeeze. fold audio_pred in HL'. rewrite HL'. simpl. now eexists. }
  destruct Hsq as [pred_sq Hsq].
  set (n1 := zero_grad od (net w1)).
  destruct (preprocessor_call (trg_melspec_fn (self w1)) audio audio_len) as [trg tl] eqn:Htrg.
  destruct (preprocessor_call (trg_melspec_fn (self w1)) pred_sq audio_len) as [pm pl] eqn:Hpm.
  destruct (mpd_call n1 audio_u (detach audio_pred)) as [[[mr mg] mfr] mfg] eqn:Hmpd.
  destruct (discriminator_loss mr mg) as [[ldm dr1] dg1] eqn:Hdm.
  destruct (msd_call n1 audio_u (detach audio_pred)) as [[[sr sg] sfr] sfg] eqn:Hmsd.
  destruct (discriminator_loss sr sg) as [[lds dr2] dg2] eqn:Hds.
  set (n2 := zero_grad og (optim_step od (manual_backward (r_add lds ldm) od n1))).
  destruct (mpd_call n2 audio_u audio_pred) as [[[mr' mg'] mfr'] mfg'] eqn:Hmpd'.
  destruct (msd_call n2 audio_u audio_pred) as [[[sr' sg'] sfr'] sfg'] eqn:Hmsd'.
  destruct (generator_loss mg') as [lgm gl1] eqn:Hgm.
  destruct (generator_loss sg') as [lgs gl2] eqn:Hgs.
  rewrite (training_step_run w1 batch i o audio audio_len audio_mel trg tl audio_u pred_sq pm pl
             od og mr mg mfr mfg ldm dr1 dg1 sr sg sfr sfg lds dr2 dg2
             mr' mg' mfr' mfg' sr' sg' sfr' sfg' lgm gl1 lgs gl2) by assumption.
  simpl. eexists _, _, _. split; [reflexivity|]. split; reflexivity.
Qed.

(** X8. A batch of the other mode's arity is refused before anything is
    done: a model fine-tuning on pre-computed mels raises [ValueError] on
    a two-element batch, a model training on ground-truth mels on a
    three-element one, in [training_step] and in [validation_step] alike,
    and the world is left as it was. *)
Theorem batch_arity_mismatch w i o :
  (finetune (self w) = true ->
   forall audio audio_len,
     let e := ValueError "not enough values to unpack (expected 3, got 2)" in
     training_step (AudioBatch audio audio_len) i o w = (Raise e, w) /\
     validation_step (AudioBatch audio audio_len) i w = (Raise e, w)) /\
  (finetune (self w) = false ->
   forall audio audio_len audio_mel,
     let e := ValueError "too many values to unpack (expected 2)" in
     training_step (MelAudioBatch audio audio_len audio_mel) i o w = (Raise e, w) /\
     validation_step (MelAudioBatch audio audio_len audio_mel) i w = (Raise e, w)).
Proof.
  split; intros Hft; intros; unfold training_step, validation_step; run_m; rewrite Hft; simpl;
    destruct w; split; reflexivity.
Qed.

(** X9. [training_step] assigns no attribute of the model: whatever its
    outcome, the model object (its cached bias, loaders, optimizers and
    mode) is the one it started from, and so are the step counter and the
    logger; only the trainable state and the trace move. *)
Theorem training_step_frame w batch i o :
  let w' := (training_step batch i o w).2 in
  self w' = self w /\ trainer_side w w'.
Proof.
  assert (H : keeps (fun w' => self w' = self w /\ trainer_side w w') (training_step batch i o)).
  { unfold training_step, unpack2, unpack3, do_zero_grad, do_manual_backward, do_step.
    keeps_auto. }
  apply H. repeat split.
Qed.

(** ** What validation and denoising leave alone *)

#[local] Arguments _bias_denoise : simpl never.
#[local] Arguments media_loop : simpl never.
#[local] Arguments Nat.min : simpl never.

Lemma validation_step_trace w batch i :
  exists evs, events (validation_step batch i w).2 = events w ++ evs /\ validation_trace evs.
Proof.
  unfold validation_step, forward. run_m.
  repeat match goal with
         | |- context [_bias_denoise ?a ?m ?w0] =>
             let H := fresh "Hev" in
             pose proof (bias_denoise_around a m w0) as H;
             destruct (_bias_denoise a m w0) as [[?|?] ?];
             simpl in H; destruct H as (_ & _ & _ & H); simpl
         | |- context [match ?x with _ => _ end] =>
             lazymatch x with
             | context [match _ with _ => _ end] => fail
             | _ => destruct x; simpl
             end
         end;
    rewrite ?Hev; rewrite <- ?app_assoc; simpl;
    first [ exists []; split; [now rewrite app_nil_r | constructor]
          | eexists; split; [reflexivity | constructor] ].
Qed.

(** X10. [validation_step] never trains: whatever its outcome, the
    trainable state, the step counter and the logger are untouched, no
    attribute of the model but the cached bias is assigned, and what it
    logs is the validation loss, followed at most by one set of samples. *)
Theorem validation_step_never_trains w batch i :
  let w' := (validation_step batch i w).2 in
  net w' = net w /\ trainer_side w w' /\
  self w' = with_stft_bias (stft_bias (self w')) (self w) /\
  exists evs, events w' = events w ++ evs /\ validation_trace evs.
Proof.
  intros w'. subst w'.
  assert (H : keeps (fun w' => net w' = net w /\ trainer_side w w' /\
                               exists b, self w' = with_stft_bias b (self w))
                (validation_step batch i)).
  { unfold validation_step, _bias_denoise, forward, unpack2, unpack3.
    repeat keeps_step; try (simpl; assumption);
      match goal with
      | H : _ /\ _ /\ exists b, _ |- _ =>
          destruct H as (Hn & Ht & b0 & Hs); simpl; rewrite Hs;
          split; [exact Hn|]; split; [exact Ht|]; eexists; reflexivity
      end. }
  destruct (H w) as (Hn & Ht & b & Hs).
  { split; [reflexivity|]. split; [split; reflexivity|].
    exists (stft_bias (self w)). now destruct (self w). }
  split; [exact Hn|]. split; [exact Ht|]. split; [rewrite Hs; reflexivity|].
  apply validation_step_trace.
Qed.

(** X11. Once a bias is cached, [_bias_denoise] is a function of the audio
    alone: the call changes nothing in the world, and neither the mel it
    is given nor the trainable state of the generator has any part in
    what it returns. *)
Theorem bias_denoise_cached_ignores_mel w audio mel mel' n' step' wandb' bias :
  stft_bias (self w) = Some bias ->
  (_bias_denoise audio mel w).2 = w /\
  (_bias_denoise audio mel' w).1 = (_bias_denoise audio mel w).1 /\
  (_bias_denoise audio mel (run_op (Trainer n' step' wandb') w)).1 =
    (_bias_denoise audio mel w).1.
Proof.
  intros Hbias. unfold _bias_denoise. run_m. rewrite Hbias. simpl.
  destruct (stft audio) as [[mags phase]|e]; simpl; [|now destruct w].
  rewrite Hbias. simpl.
  destruct (tbinop r_sub mags _) as [t|e]; simpl; [|now destruct w].
  destruct (istft _ _) as [d|e]; simpl; now destruct w.
Qed.

Lemma broadcast_one3 (B B' F T : nat) :
  B' = 1%nat \/ B = 1%nat ->
  broadcast_shapes [B; F; T] [B'; F; 1%nat] = Some [if (B =? 1)%nat then B' else B; F; T] /\
  broadcast_shapes [if (B =? 1)%nat then B' else B; F; T] [B; F; T] =
    Some [if (B =? 1)%nat then B' else B; F; T].
Proof.
  intros HB. unfold broadcast_shapes. cbn. rewrite !Nat.eqb_refl.
  destruct (T =? 1)%nat eqn:ET; destruct (B =? 1)%nat eqn:EB; destruct (B =? B')%nat eqn:EBB;
    destruct (B' =? 1)%nat eqn:EB'; destruct (B' =? B)%nat eqn:EBB';
    repeat match goal with
           | H : (_ =? _)%nat = true |- _ => apply Nat.eqb_eq in H
           | H : (_ =? _)%nat = false |- _ => apply Nat.eqb_neq in H
           end; subst; cbn; rewrite ?Nat.eqb_refl; try lia; split; reflexivity.
Qed.

(** A call on a model that holds a bias, when the bias or the audio has a
    batch of one. *)
Lemma bias_denoise_one w audio mel bias B B' L F T xs :
  stft_bias (self w) = Some bias ->
  shape bias = [B'; F; 1%nat] ->
  shape audio = [B; 1%nat; L] ->
  squeeze 1 audio = Ok xs ->
  shape (stft_patch xs 1024 256 1024) = [B; F; T; 2%nat] ->
  B' = 1%nat \/ B = 1%nat ->
  exists comp,
    _bias_denoise audio mel w = (unsqueeze 1 (torch_istft comp 1024 256 1024), w) /\
    shape comp = [if (B =? 1)%nat then B' else B; F; T; 2%nat].
Proof.
  intros Hbias Hsb Ha Hsq Hc HB.
  destruct (stft_shapes audio B L F T Ha) as (xs' & mags & phase & Hsq' & _ & Hst & Hm & Hp & _).
  { intros xs0 H0. rewrite Hsq in H0. injection H0 as <-. exact Hc. }
  destruct (broadcast_one3 B B' F T HB) as [Hb1 Hb2].
  unfold _bias_denoise. run_m. rewrite Hbias. simpl. rewrite Hst. simpl. rewrite Hbias. simpl.
  unfold tbinop at 1. simpl. rewrite Hm, Hsb, Hb1. simpl.
  unfold istft. unfold tbinop. simpl. rewrite Hp, Hb2. simpl.
  unfold stack_last. simpl. rewrite bool_decide_eq_true_2 by reflexivity. simpl.
  eexists. split; [destruct w; reflexivity | reflexivity].
Qed.

(** X12. A batch of one broadcasts. A model that computed its bias from a
    mel of [B1] clips denoises audio of [B2] clips whenever one of the two
    is 1: a bias of one clip serves every batch size, and one clip
    denoised against a bias of [B1] clips comes back as [B1] clips. *)
Theorem bias_denoise_batch_of_one w audio1 mel1 audio2 mel2 B1 B2 D T L :
  generator_shape_law -> stft_shape_law -> istft_shape_law ->
  stft_bias (self w) = None ->
  shape mel1 = [B1; D; T] ->
  shape audio2 = [B2; 1%nat; L] ->
  B1 = 1%nat \/ B2 = 1%nat ->
  let w1 := (_bias_denoise audio1 mel1 w).2 in
  exists bias out L',
    stft_bias (self w1) = Some bias /\
    shape bias = [B1; n_bins; 1%nat] /\
    _bias_denoise audio2 mel2 w1 = (Ok out, w1) /\
    shape out = [if (B2 =? 1)%nat then B1 else B2; 1%nat; L'].
Proof.
  intros Hg Hs Hi Hnone Hmel Ha HB w1.
  destruct (computed_bias w mel1 B1 D T Hg Hs Hmel) as (mags & ph & bias & Hst & Hff & Hsb & _).
  assert (Hb1 : stft_bias (self w1) = Some bias)
    by now apply (bias_denoise_first w audio1 mel1 mags ph).
  assert (Hsq : exists xs, squeeze 1 audio2 = Ok xs /\ shape xs = [B2; L]).
  { unfold squeeze. rewrite Ha. simpl. eexists. split; reflexivity. }
  destruct Hsq as (xs & Hsq & Hxs).
  destruct (Hs xs B2 L Hxs) as [T2 HT2].
  destruct (bias_denoise_one w1 audio2 mel2 bias B2 B1 L n_bins (S T2) xs Hb1 Hsb Ha Hsq HT2 HB)
    as (comp & Hrun & Hc).
  destruct (Hi comp _ (S T2) Hc) as [L' HL'].
  exists bias. eexists. exists L'. split; [exact Hb1|]. split; [exact Hsb|].
  rewrite Hrun. unfold unsqueeze. rewrite HL'. simpl. split; reflexivity.
Qed.

(** ** Data loaders and the configuration *)

Lemma train_loader_params_fixed (f : bool) (params : DictConfig) :
  train_loader_params (mkDict f (train_loader_params params)) = train_loader_params params.
Proof.
  unfold train_loader_params. simpl.
  destruct (content params !! "shuffle") as [n|] eqn:Hs.
  - now rewrite Hs.
  - now rewrite lookup_insert_eq.
Qed.

Lemma setup_training_data_run cfg ds params w :
  content cfg !! "dataset" = Some (NDict ds) ->
  content cfg !! "dataloader_params" = Some (NDict params) ->
  setup_training_data cfg w =
    (Ok (mkDict (struct_flag cfg)
           (<["dataloader_params" :=
                NDict (mkDict (struct_flag params) (train_loader_params params))]>
              (content cfg))),
     mkWorld
       (with_train_dl (mkDataLoader (instantiate ds []) (train_loader_params params)) (self w))
       (net w) (global_step w) (logger_is_wandb w) (events w ++ train_shuffle_log params)).
Proof.
  intros Hds Hp. unfold setup_training_data, __setup_dataloader_from_config.
  rewrite Hds, Hp. unfold train_shuffle_log, train_loader_params, contains, getattr. run_m.
  destruct (content params !! "shuffle") as [n|] eqn:Hs; simpl.
  - try rewrite Hs; simpl.
    destruct (truthy n); simpl; try rewrite app_nil_r; now destruct params.
  - reflexivity.
Qed.

(** X13. Setting up the training data a second time, from the
    configuration the first set-up left, gives the same configuration and
    the same loader again, and does not repeat the warning about a
    missing [shuffle]: the entry the first set-up added is found. *)
Theorem setup_training_data_twice cfg ds params w :
  content cfg !! "dataset" = Some (NDict ds) ->
  content cfg !! "dataloader_params" = Some (NDict params) ->
  exists cfg' w1 w2,
    setup_training_data cfg w = (Ok cfg', w1) /\
    setup_training_data cfg' w1 = (Ok cfg', w2) /\
    self w2 = self w1 /\
    events w2 = events w1 ++ train_shuffle_log_again params /\
    (content params !! "shuffle" = None -> events w2 = events w1).
Proof.
  intros Hds Hp. eexists _, _, _.
  split; [now apply (setup_training_data_run cfg ds params)|].
  split.
  - rewrite (setup_training_data_run _ ds
               (mkDict (struct_flag params) (train_loader_params params))); simpl.
    + rewrite insert_insert_eq, train_loader_params_fixed. reflexivity.
    + now rewrite lookup_insert_ne.
    + now rewrite lookup_insert_eq.
  - simpl. rewrite ?train_loader_params_fixed.
    split; [reflexivity|].
    assert (Hlog : train_shuffle_log (mkDict (struct_flag params) (train_loader_params params))
                   = train_shuffle_log_again params).
    { unfold train_shuffle_log_again, train_shuffle_log, train_loader_params, contains. simpl.
      destruct (content params !! "shuffle") as [n|] eqn:Hs.
      - rewrite Hs. now rewrite bool_decide_eq_true_2 by now eexists.
      - rewrite lookup_insert_eq. reflexivity. }
    rewrite Hlog. split; [reflexivity|].
    intros Hs. unfold train_shuffle_log_again, contains. rewrite Hs.
    simpl. now rewrite app_nil_r.
Qed.

(** X14. What setting up the training data changes is confined to
    [shuffle]: the configuration it leaves has the struct flags and every
    entry of the one it was given, within [dataloader_params] too, except
    that a missing [shuffle] is now [True]; the loader is built with
    exactly the parameters the configuration is left with, and nothing of
    the model but the training loader is assigned. *)
Theorem setup_training_data_confined cfg ds params w :
  content cfg !! "dataset" = Some (NDict ds) ->
  content cfg !! "dataloader_params" = Some (NDict params) ->
  exists cfg' params' dl w',
    setup_training_data cfg w = (Ok cfg', w') /\
    struct_flag cfg' = struct_flag cfg /\
    (forall key, key <> "dataloader_params"%string -> content cfg' !! key = content cfg !! key) /\
    content cfg' !! "dataloader_params" = Some (NDict params') /\
    struct_flag params' = struct_flag params /\
    (forall key, key <> "shuffle"%string -> content params' !! key = content params !! key) /\
    content params' !! "shuffle" =
      Some (default (NBool true) (content params !! "shuffle")) /\
    self w' = with_train_dl dl (self w) /\
    loader_params dl = content params' /\
    net w' = net w /\ trainer_side w w'.
Proof.
  intros Hds Hp. eexists _, _, _, _.
  split; [now apply (setup_training_data_run cfg ds params)|]. simpl.
  split; [reflexivity|].
  split; [intros key Hk; now rewrite lookup_insert_ne|].
  split; [now rewrite lookup_insert_eq|]. simpl.
  split; [reflexivity|].
  unfold train_loader_params.
  split; [|split].
  - intros key Hk. destruct (content params !! "shuffle"); [reflexivity|].
    now rewrite lookup_insert_ne.
  - destruct (content params !! "shuffle") as [n|] eqn:Hs; simpl; [exact Hs|].
    now rewrite lookup_insert_eq.
  - repeat split.
Qed.

(** X15. Setting up the validation data never changes the configuration:
    when it returns, the configuration is the one it was given, the
    loader is built with the [dataloader_params] as they are, and nothing
    of the model but the validation loader is assigned. *)
Theorem setup_validation_data_keeps_cfg cfg w cfg' w' :
  setup_validation_data cfg w = (Ok cfg', w') ->
  cfg' = cfg /\
  exists ds params,
    content cfg !! "dataset" = Some (NDict ds) /\
    content cfg !! "dataloader_params" = Some (NDict params) /\
    self w' = with_validation_dl (mkDataLoader (instantiate ds []) (content params)) (self w) /\
    net w' = net w /\ trainer_side w w'.
Proof.
  unfold setup_validation_data, __setup_dataloader_from_config.
  destruct (content cfg !! "dataset") as [[| | | | | |ds]|] eqn:Hds; try discriminate.
  destruct (content cfg !! "dataloader_params") as [[| | | | | |params]|] eqn:Hp;
    try discriminate.
  assert (Hcfg : mkDict (struct_flag cfg) (<["dataloader_params" := NDict params]> (content cfg))
                 = cfg).
  { destruct cfg as [f c]. simpl in *. f_equal. now apply insert_id. }
  unfold getattr. run_m.
  destruct (content params !! "shuffle") as [n|]; simpl;
    [destruct (truthy n) | destruct (struct_flag params); [discriminate|]]; simpl;
    rewrite Hcfg; intros [= <- <-]; (split; [reflexivity|]);
    exists ds, params; repeat split.
Qed.

(** X16. [configure_optimizers] gives the same optimizers and schedulers
    whenever it is called in the life of a model, whatever was called
    before; and calling it again right away changes nothing. *)
Theorem configure_optimizers_stable w ops :
  (configure_optimizers (run_ops ops w)).1 = (configure_optimizers w).1 /\
  configure_optimizers (configure_optimizers w).2 =
    ((configure_optimizers w).1, (configure_optimizers w).2).
Proof.
  split; [|reflexivity].
  set (Q := fun m : HifiGanModel R =>
              _cfg m = _cfg (self w) /\ generator m = generator (self w) /\
              finetune m = finetune (self w)).
  assert (H : forall w0, of_self Q w0 -> of_self Q (run_ops ops w0)).
  { induction ops as [|op ops IH]; intros w0 Hw0; simpl; [done|].
    apply IH. apply (run_op_keeps_self Q); try (intros; assumption).
    intros audio mel. apply bias_denoise_keeps_self. intros; assumption. }
  destruct (H w) as (Hc & Hg & Hf); [repeat split|].
  rewrite !configure_optimizers_run. simpl. now rewrite Hc, Hg, Hf.
Qed.

(** ** The samples sent to the tracker *)

#[local] Arguments squeeze : simpl never.
#[local] Arguments size : simpl never.
#[local] Arguments Z.eqb : simpl never.

Lemma media_of_lengths rate audio audio_len audio_pred pred_denoised audio_mel audio_pred_mel
    pred_denoised_mel gt_mel audio_mel_len i cs :
  media_of rate audio audio_len audio_pred pred_denoised audio_mel audio_pred_mel
    pred_denoised_mel gt_mel audio_mel_len i = Ok cs ->
  length cs.1 = 3%nat /\
  length cs.2 = match gt_mel with Some _ => 4%nat | None => 3%nat end.
Proof.
  unfold media_of.
  repeat match goal with
         | |- context [rbind ?r _] =>
             lazymatch r with
             | context [rbind _ _] => fail
             | _ => destruct r; simpl; try discriminate
             end
         end.
  destruct gt_mel as [gt|]; simpl.
  - destruct (plot_of gt audio_mel_len i); simpl; [|discriminate]. now intros [= <-].
  - now intros [= <-].
Qed.

Lemma media_loop_lengths (f : nat -> Result (list Media * list Media)) (k : nat) :
  (forall i cs, f i = Ok cs -> length cs.1 = 3%nat /\ length cs.2 = k) ->
  forall indices clips specs clips' specs',
    media_loop f indices clips specs = Ok (clips', specs') ->
    length clips' = (length clips + 3 * length indices)%nat /\
    length specs' = (length specs + k * length indices)%nat.
Proof.
  intros Hf. induction indices as [|i rest IH]; intros clips specs clips' specs'.
  - intros [= <- <-]. simpl. lia.
  - change (media_loop f (i :: rest) clips specs)
      with (rbind (f i) (fun cs => media_loop f rest (clips ++ cs.1) (specs ++ cs.2))).
    destruct (f i) as [cs|e] eqn:Hi; simpl; [|discriminate].
    intros Hrest. destruct (Hf i cs Hi) as [H1 H2].
    destruct (IH _ _ _ _ Hrest) as [Hc Hs].
    rewrite Hc, Hs, !length_app, H1, H2. simpl. lia.
Qed.

(** X17. Whatever [validation_step] sends to the tracker is sent for the
    first batch of an epoch only, to a [WandbLogger] with wandb imported,
    and holds the samples of at most five clips of the batch: three audio
    clips for each, and three spectrograms, four when fine-tuning. *)
Theorem validation_step_samples w batch i :
  exists evs,
    events (validation_step batch i w).2 = events w ++ evs /\
    forall clips specs, In (ExperimentLog clips specs) evs ->
      i = 0 /\ logger_is_wandb w = true /\ HAVE_WANDB = true /\
      exists count,
        size (batch_audio batch) 0 = Ok count /\
        length clips = (3 * Nat.min 5 count)%nat /\
        length specs = ((if finetune (self w) then 4 else 3) * Nat.min 5 count)%nat.
Proof.
  unfold validation_step, forward. run_m.
  repeat match goal with
         | |- context [_bias_denoise ?a ?m ?w0] =>
             let H := fresh "Hev" in
             pose proof (bias_denoise_around a m w0) as H;
             destruct (_bias_denoise a m w0) as [[?|?] ?];
             simpl in H; destruct H as (_ & _ & Hlog & H); simpl
         | |- context [media_loop ?f ?idxs ?c ?s] =>
             let H := fresh "Hloop" in
             destruct (media_loop f idxs c s) as [[? ?]|?] eqn:H; simpl
         | |- context [match ?x with _ => _ end] =>
             lazymatch x with
             | context [match _ with _ => _ end] => fail
             | _ => let E := fresh "E" in destruct x eqn:E; simpl
             end
         end;
    rewrite ?Hev; rewrite <- ?app_assoc; simpl;
    (eexists; split;
     [first [reflexivity | symmetry; apply app_nil_r]
     |intros clips specs Hin; simpl in Hin;
      repeat (destruct Hin as [Hin|Hin]; try discriminate Hin); try contradiction]).
  all: injection Hin as <- <-.
  all: repeat match goal with
              | H : _ && _ = true |- _ => apply andb_prop in H; destruct H
              end.
  all: match goal with H : (_ =? _) = true |- _ => apply Z.eqb_eq in H end.
  all: split; [assumption|]; split; [congruence|];
    split; [first [reflexivity | assumption]|].
  all: eexists; split; [reflexivity|].
  all: match goal with
       | H : media_loop _ _ _ _ = Ok _ |- _ =>
           apply (media_loop_lengths _ _ (media_of_lengths _ _ _ _ _ _ _ _ _ _)) in H;
           rewrite length_seq in H; simpl in H; destruct H as [-> ->]; split; lia
       end.
Qed.

(** ** Tensors *)

(** [t.unsqueeze(1).squeeze(1)] is [t]: the shape, the elements and the
    autograd flag of a tensor of at least one dimension come back. *)
Lemma squeeze_unsqueeze (t : Tensor R) :
  shape t <> [] ->
  exists u s,
    unsqueeze 1 t = Ok u /\ squeeze 1 u = Ok s /\
    shape s = shape t /\ requires_grad s = requires_grad t /\
    forall i rest, item s (i :: rest) = item t (i :: rest).
Proof.
  intros Hne. destruct (shape t) as [|d ds] eqn:Hs; [done|].
  unfold unsqueeze, squeeze. rewrite Hs. simpl. eexists _, _.
  repeat split.
Qed.

(** X19. Under the shapes the neural types declare, a validation step on
    a batch of [B] clips that fits the model's mode always reaches the
    logging of ["val_loss"], when the model holds no bias yet or a bias
    of [B] clips: the denoising goes through, and it leaves a bias of [B]
    clips, so the same holds of the next batch of that size. *)
Theorem validation_step_logs_under_laws w batch i audio audio_len audio_mel audio_mel_len
    B D T :
  generator_shape_law -> stft_shape_law -> istft_shape_law ->
  validation_inputs (self w) batch audio audio_len audio_mel audio_mel_len ->
  shape audio_mel = [B; D; T] ->
  (stft_bias (self w) = None \/
   exists bias, stft_bias (self w) = Some bias /\ shape bias = [B; n_bins; 1%nat]) ->
  exists pred_sq rest bias,
    squeeze 1 (generator_call (generator (self w)) (net w) audio_mel) = Ok pred_sq /\
    events (validation_step batch i w).2 =
      events w ++
      Log "val_loss"
        (l1_loss audio_mel
           (preprocessor_call (audio_to_melspec_precessor (self w)) pred_sq audio_len).1)
      :: rest /\
    stft_bias (self (validation_step batch i w).2) = Some bias /\
    shape bias = [B; n_bins; 1%nat].
Proof.
  intros Hg Hs Hi Hin Hmel Hb.
  set (audio_pred := generator_call (generator (self w)) (net w) audio_mel).
  destruct (Hg (generator (self w)) (net w) audio_mel B D T Hmel) as [L HL].
  fold audio_pred in HL.
  assert (Hsq : exists xs, squeeze 1 audio_pred = Ok xs /\ shape xs = [B; L]).
  { unfold squeeze. rewrite HL. simpl. eexists. split; reflexivity. }
  destruct Hsq as (xs & Hsq & Hxs).
  destruct (Hs xs B L Hxs) as [T0 HT0].
  assert (Hbias : exists bias,
             shape bias = [B; n_bins; 1%nat] /\
             _bias_denoise audio_pred audio_mel w =
               _bias_denoise audio_pred audio_mel (with_bias bias w)).
  { destruct Hb as [Hnone | (bias & Hsome & Hsb)].
    - destruct (computed_bias w audio_mel B D T Hg Hs Hmel)
        as (mags & ph & bias & Hst & Hff & Hsb & _).
      exists bias. split; [exact Hsb|]. now apply (bias_denoise_first_unfold _ _ _ mags ph).
    - exists bias. split; [exact Hsb|]. now rewrite with_bias_same. }
  destruct Hbias as (bias & Hsb & Hrun).
  destruct (bias_denoise_cached (with_bias bias w) audio_pred audio_mel bias B L n_bins (S T0) xs)
    as (mags & phase & comp & _ & Hden & Hc & _); try assumption; [reflexivity|].
  destruct (Hi comp B (S T0) Hc) as [L' HL'].
  assert (Hun : exists den pd,
             unsqueeze 1 (torch_istft comp 1024 256 1024) = Ok den /\ squeeze 1 den = Ok pd).
  { unfold unsqueeze, squeeze. rewrite HL'. simpl. eexists _, _. split; reflexivity. }
  destruct Hun as (den & pd & Hun & Hpd).
  rewrite Hun, <- Hrun in Hden.
  destruct (validation_step_tail w (with_bias bias w) batch i audio audio_len audio_mel
              audio_mel_len den pd xs Hin Hden Hpd Hsq) as [He Hstep].
  exists xs. rewrite Hstep.
  destruct ((i =? 0) && logger_is_wandb w && HAVE_WANDB);
    [destruct (size audio 0); [destruct (media_loop _ _ _ _) as [[c s]|]|]|];
    eexists _, bias; (split; [exact Hsq|]); simpl; (split; [reflexivity|]);
    (split; [reflexivity | exact Hsb]).
Qed.

(** ** The warmup of the generator's scheduler, numerically *)

Lemma all_from_spec (f : Z -> bool) (p : positive) :
  forall lo, all_from p lo f = true -> forall k, lo <= k < lo + Z.pos p -> f k = true.
Proof.
  induction p as [q IH|q IH|]; intros lo H k Hk; simpl in H.
  - apply andb_prop in H as [H H2]. apply andb_prop in H as [H0 H1].
    destruct (Z.eq_dec k lo) as [->|Hne]; [exact H0|].
    destruct (Z_lt_le_dec k (lo + 1 + Z.pos q)).
    + apply (IH _ H1). lia.
    + apply (IH _ H2). lia.
  - apply andb_prop in H as [H1 H2].
    destruct (Z_lt_le_dec k (lo + Z.pos q)).
    + apply (IH _ H1). lia.
    + apply (IH _ H2). lia.
  - assert (k = lo) as -> by lia. exact H.
Qed.

Lemma warmup_checked : all_from 10001 0 warmup_is_fifth = true.
Proof. vm_compute. reflexivity. Qed.

(** X20. For a model training on ground-truth mels with [max_steps] from
    0 to 10000, the warmup [configure_optimizers] gives the generator's
    scheduler, the float [np.ceil(0.2 * max_steps)], is exactly the
    ceiling of a fifth of [max_steps]: the rounding of [0.2] and of the
    product never moves it to the next integer. *)
Theorem warmup_steps_exact w :
  finetune (self w) = false ->
  0 <= max_steps (_cfg (self w)) <= 10000 ->
  exists sg f,
    scheduler_g (self (configure_optimizers w).2) = Some sg /\
    sched_warmup_steps sg = Some (PyFloat f) /\
    PrimFloat.eqb f (float_of_int ((max_steps (_cfg (self w)) + 4) / 5)) = true.
Proof.
  intros Hft Hk. rewrite configure_optimizers_run. simpl. rewrite Hft.
  eexists _, _. split; [reflexivity|]. split; [reflexivity|].
  apply (all_from_spec warmup_is_fifth 10001 0 warmup_checked). lia.
Qed.

(** ** What [_bias_denoise] returns *)

#[local] Arguments unsqueeze : simpl never.
#[local] Arguments stft : simpl never.
#[local] Arguments istft : simpl never.
#[local] Arguments first_frame : simpl never.
#[local] Arguments tbinop : simpl never.

Lemma bias_denoise_returns_unsqueezed w audio mel out :
  (_bias_denoise audio mel w).1 = Ok out -> exists den, unsqueeze 1 den = Ok out.
Proof.
  unfold _bias_denoise, forward. run_m.
  split_calls; simpl; intros H; try discriminate H; eauto.
Qed.

(** X18. Whatever [_bias_denoise] returns has a dimension 1 of size 1,
    added last: the [squeeze(1)] that [validation_step] applies to it
    never fails and never leaves it as it is, and gives back the
    denoised audio with its shape, its elements and its autograd flag. *)
Theorem bias_denoise_output_squeezes w audio mel out :
  (_bias_denoise audio mel w).1 = Ok out ->
  exists den s,
    unsqueeze 1 den = Ok out /\
    shape out !! 1%nat = Some 1%nat /\
    squeeze 1 out = Ok s /\
    shape s = shape den /\ requires_grad s = requires_grad den /\
    forall i rest, item s (i :: rest) = item den (i :: rest).
Proof.
  intros H. destruct (bias_denoise_returns_unsqueezed _ _ _ _ H) as [den Hden].
  assert (Hne : shape den <> []).
  { intros Hnil. unfold unsqueeze in Hden. rewrite Hnil in Hden. discriminate Hden. }
  destruct (squeeze_unsqueeze den Hne) as (u & s & Hu & Hs & Hshape & Hrg & Hitem).
  rewrite Hden in Hu. injection Hu as <-.
  exists den, s. split; [exact Hden|]. split; [|auto].
  unfold unsqueeze in Hden. destruct (shape den) as [|d ds]; [done|].
  simpl in Hden. injection Hden as <-. reflexivity.
Qed.

(** ** The metrics of a training step *)

(** X21. A training step that goes through leaves the trainable state
    updated by the discriminators' optimizer and then by the
    generator's, and logs last one dictionary of eleven metrics, in the
    order of the source: ["d_loss"] is the multi-scale plus the
    multi-period discriminator loss, ["g_loss"] the sum of the five
    generator terms, ["global_step"] the trainer's step, and ["lr"] the
    learning rate of the generator's optimizer read after its step. *)
Theorem training_step_metrics w batch i o audio audio_len audio_mel audio_u pred_sq od og :
  let w' := (training_step batch i o w).2 in
  unpacks_to (self w) batch audio audio_len audio_mel ->
  unsqueeze 1 audio = Ok audio_u ->
  squeeze 1 (generator_call (generator (self w)) (net w) audio_mel) = Ok pred_sq ->
  optim_d (self w) = Some od ->
  optim_g (self w) = Some og ->
  exists l1 fm_mpd fm_msd gen_mpd gen_msd d_mpd d_msd,
    let loss_g := r_add (r_add (r_add (r_add gen_msd gen_mpd) fm_msd) fm_mpd) l1 in
    let loss_d := r_add d_msd d_mpd in
    last (events w') =
      Some (LogDict
              [("g_l1_loss"%string, MTensor l1);
               ("g_loss_fm_mpd"%string, MTensor fm_mpd);
               ("g_loss_fm_msd"%string, MTensor fm_msd);
               ("g_loss_gen_mpd"%string, MTensor gen_mpd);
               ("g_loss_gen_msd"%string, MTensor gen_msd);
               ("g_loss"%string, MTensor loss_g);
               ("d_loss_mpd"%string, MTensor d_mpd);
               ("d_loss_msd"%string, MTensor d_msd);
               ("d_loss"%string, MTensor loss_d);
               ("global_step"%string, MInt (global_step w));
               ("lr"%string, MFloat (param_group_lr og (net w')))]) /\
    net w' =
      optim_step og (manual_backward loss_g og (zero_grad og
        (optim_step od (manual_backward loss_d od (zero_grad od (net w)))))).
Proof.
  intros w' Hb Hu Hsq Hod Hog. subst w'.
  set (audio_pred := generator_call (generator (self w)) (net w) audio_mel) in *.
  set (n1 := zero_grad od (net w)).
  destruct (preprocessor_call (trg_melspec_fn (self w)) audio audio_len) as [trg tl] eqn:Htrg.
  destruct (preprocessor_call (trg_melspec_fn (self w)) pred_sq audio_len) as [pm pl] eqn:Hpm.
  destruct (mpd_call n1 audio_u (detach audio_pred)) as [[[mr mg] mfr] mfg] eqn:Hmpd.
  destruct (discriminator_loss mr mg) as [[ldm dr1] dg1] eqn:Hdm.
  destruct (msd_call n1 audio_u (detach audio_pred)) as [[[sr sg] sfr] sfg] eqn:Hmsd.
  destruct (discriminator_loss sr sg) as [[lds dr2] dg2] eqn:Hds.
  set (n2 := zero_grad og (optim_step od (manual_backward (r_add lds ldm) od n1))).
  destruct (mpd_call n2 audio_u audio_pred) as [[[mr' mg'] mfr'] mfg'] eqn:Hmpd'.
  destruct (msd_call n2 audio_u audio_pred) as [[[sr' sg'] sfr'] sfg'] eqn:Hmsd'.
  destruct (generator_loss mg') as [lgm gl1] eqn:Hgm.
  destruct (generator_loss sg') as [lgs gl2] eqn:Hgs.
  rewrite (training_step_run w batch i o audio audio_len audio_mel trg tl audio_u pred_sq pm pl
             od og mr mg mfr mfg ldm dr1 dg1 sr sg sfr sfg lds dr2 dg2
             mr' mg' mfr' mfg' sr' sg' sfr' sfg' lgm gl1 lgs gl2) by assumption.
  eexists _, _, _, _, _, _, _. simpl. split; [|reflexivity].
  now rewrite last_app.
Qed.

End Proofs.

(** * The statements at work on the small framework *)

Import Toy.

Example np_ceil_fifth_of_1000 : np_ceil (0.2 * float_of_int 1000)%float = 200%float.
Proof. vm_compute. reflexivity. Qed.

Example np_ceil_fifth_of_1001 : np_ceil (0.2 * float_of_int 1001)%float = 201%float.
Proof. vm_compute. reflexivity. Qed.

Example broadcast_frame : broadcast_shapes [3; 513; 7]%nat [3; 513; 1]%nat = Some [3; 513; 7]%nat.
Proof. vm_compute. reflexivity. Qed.

Example broadcast_single_batch :
  broadcast_shapes [3; 513; 7]%nat [1; 513; 1]%nat = Some [3; 513; 7]%nat.
Proof. vm_compute. reflexivity. Qed.

Example broadcast_batches_3_2 : broadcast_shapes [2; 513; 7]%nat [3; 513; 1]%nat = None.
Proof. vm_compute. reflexivity. Qed.

Example squeeze_channel :
  shape (squeezed (full [3; 1; 4]%nat 5)) = [3; 4]%nat /\
  shape (squeezed (full [3; 2; 4]%nat 5)) = [3; 2; 4]%nat.
Proof. split; reflexivity. Qed.

Lemma toy_generator_shape : generator_shape_law (FW:=framework).
Proof. intros o n spec B D T Hs. exists 4%nat. simpl. unfold batch_size. now rewrite Hs. Qed.

Lemma toy_stft_shape : stft_shape_law (FW:=framework).
Proof. intros x B L Hs. exists 2%nat. simpl. unfold batch_size. now rewrite Hs. Qed.

Lemma toy_istft_shape : istft_shape_law (FW:=framework).
Proof. intros c B T Hs. exists 3%nat. simpl. unfold batch_size. now rewrite Hs. Qed.

Lemma toy_init ds :
  __init__ cfg (Some (loader ds)) None =
    (Ok (model ds), [Logging INFO (if finetune (model ds) then MsgFineTuning else MsgGroundTruth)]).
Proof. reflexivity. Qed.

(** The bias of a model built on ground-truth audio, across a first
    denoising of three clips and a later training step. *)
Lemma stft_bias_memoized_witness :
  stft_bias (model audio_dataset) = None /\
  exists bias,
    stft_bias (self (_bias_denoise (pred mel3) mel3 (world audio_dataset)).2) = Some bias /\
    stft_bias
      (self (run_ops [CallConfigureOptimizers; CallTrainingStep (AudioBatch audio3 len3) 0 0;
                      CallBiasDenoise (pred mel2) mel2]
               (_bias_denoise (pred mel3) mel3 (world audio_dataset)).2)) = Some bias.
Proof.
  destruct (@stft_bias_memoized Z scalar framework) as (Hinit & Hfirst & Hkept).
  split.
  - apply (Hinit cfg (Some (loader audio_dataset)) None (model audio_dataset) _
             (toy_init audio_dataset)).
  - eexists. split.
    + eapply (Hfirst (world audio_dataset) (pred mel3) mel3); reflexivity.
    + apply Hkept. eapply (Hfirst (world audio_dataset) (pred mel3) mel3); reflexivity.
Defined.

(** A first denoising of three clips, then one of two clips: the second
    call raises, and the bias still has three rows. *)
Lemma bias_denoise_batch_change_raises_witness :
  let w1 := (_bias_denoise (pred mel3) mel3 (world audio_dataset)).2 in
  shape (pred mel3) = [3%nat; 1%nat; 4%nat] /\
  shape (pred mel2) = [2%nat; 1%nat; 4%nat] /\
  exists bias,
    stft_bias (self w1) = Some bias /\
    shape bias = [3%nat; n_bins; 1%nat] /\
    _bias_denoise (pred mel2) mel2 w1 =
      (Raise (RuntimeError "The size of tensor a must match the size of tensor b"), w1).
Proof.
  split; [reflexivity|]. split; [reflexivity|].
  apply (bias_denoise_batch_change_raises (world audio_dataset) (pred mel3) mel3 (pred mel2) mel2
           3 2 2 2 4 toy_generator_shape toy_stft_shape);
    first [reflexivity | discriminate].
Defined.

(** Three clips denoised by a model that holds no bias yet. *)
Lemma bias_denoise_spec_witness :
  exists out L',
    (_bias_denoise (pred mel3) mel3 (world audio_dataset)).1 = Ok out /\
    shape out = [3%nat; 1%nat; L'].
Proof.
  destruct (bias_denoise_spec (world audio_dataset) (pred mel3) mel3 (bias_of mel3) 3 4
               toy_generator_shape toy_stft_shape toy_istft_shape)
    as (T & L' & mags & phase & comp & out & Hst & Hm & Hp & Hden & Hc & Hbins & Hout & Hitem).
  - reflexivity.
  - simpl. eexists _, _. split; reflexivity.
  - reflexivity.
  - exists out, L'. rewrite Hden. split; [reflexivity | exact Hout].
Defined.

(** A training step on three clips of ground-truth audio. *)
Lemma training_step_discriminator_first_witness :
  (training_step (AudioBatch audio3 len3) 0 0 (configured audio_dataset)).1 = Ok tt /\
  exists od ld og lg metrics,
    events (training_step (AudioBatch audio3 len3) 0 0 (configured audio_dataset)).2 =
      [ZeroGrad od; ManualBackward ld od; OptimStep od;
       ZeroGrad og; ManualBackward lg og; OptimStep og; LogDict metrics].
Proof.
  edestruct (proj2 (training_step_discriminator_first (configured audio_dataset)
                      (AudioBatch audio3 len3) 0 0))
    as (a1 & a2 & a3 & a4 & ldm & a6 & a7 & b1 & b2 & b3 & b4 & lds & b6 & b7 & lg & ms &
        _ & _ & _ & _ & _ & _ & _ & Hok & Hev).
  - right. split; [reflexivity|]. split; reflexivity.
  - reflexivity.
  - reflexivity.
  - reflexivity.
  - reflexivity.
  - split; [exact Hok|]. eexists _, _, _, _, _. exact Hev.
Defined.

Lemma training_step_generator_loss_witness :
  exists loss_g metrics,
    In (ManualBackward loss_g (instantiate (optim cfg) [("params"%string, NIter ["generator.conv_pre.weight"%string])]))
      (events (training_step (AudioBatch audio3 len3) 0 0 (configured audio_dataset)).2) /\
    In (LogDict metrics)
      (events (training_step (AudioBatch audio3 len3) 0 0 (configured audio_dataset)).2) /\
    In ("g_loss"%string, MTensor loss_g) metrics.
Proof.
  edestruct (training_step_generator_loss (configured audio_dataset)
               (AudioBatch audio3 len3) 0 0)
    as (n2 & ld & trg & tl & pm & pl & mr & mg & fr & fg & sr & sg & sfr & sfg &
        lgm & gl1 & lgs & gl2 & ms & _ & _ & _ & _ & _ & _ & Hok & Hev & Hg & Hl1).
  - right. split; [reflexivity|]. split; reflexivity.
  - reflexivity.
  - reflexivity.
  - reflexivity.
  - reflexivity.
  - eexists _, ms. rewrite Hev. split; [|split; [|exact Hg]].
    + simpl. do 4 right. left. reflexivity.
    + simpl. do 6 right. left. reflexivity.
Defined.

Lemma init_extractors_witness :
  exists m,
    (__init__ cfg (Some (loader audio_dataset)) None).1 = Ok m /\
    obj_args (audio_to_melspec_precessor m) !! "highfreq" = Some (NInt 8000) /\
    obj_args (trg_melspec_fn m) !! "highfreq" = Some NNone /\
    obj_args (trg_melspec_fn m) !! "use_grads" = Some (NBool true) /\
    obj_args (trg_melspec_fn m) !! "nfilt" = Some (NInt 80).
Proof.
  destruct (init_extractors (R:=Z) cfg (loader audio_dataset) None (NInt 22050))
    as (m & evs & Hinit & Hin & Hhf & Hug & Hrest).
  - reflexivity.
  - exists m. rewrite Hinit, Hin, Hhf, Hug, Hrest by done. repeat split.
Defined.

Lemma generator_warmup_by_mode_witness :
  (exists og od sg sd w',
     configure_optimizers
       (run_ops [CallSetupTrainingData (data_cfg params_with_shuffle)] (world audio_dataset)) =
       (Ok ([og; od], [mkSchedulerDict sg "step"; mkSchedulerDict sd "step"]), w') /\
     warmup_length sg = PyFloat 200 /\ warmup_length sd = PyInt 0) /\
  (exists og od sg sd w',
     configure_optimizers (world mel_dataset) =
       (Ok ([og; od], [mkSchedulerDict sg "step"; mkSchedulerDict sd "step"]), w') /\
     warmup_length sg = PyInt 0 /\ warmup_length sd = PyInt 0).
Proof.
  split.
  - destruct (generator_warmup_by_mode cfg (loader audio_dataset) None (model audio_dataset) _
                (world audio_dataset)
                [CallSetupTrainingData (data_cfg params_with_shuffle)]
                (toy_init audio_dataset) eq_refl)
      as (og & od & sg & sd & w' & Hrun & _ & Hsg & _ & Hsd).
    exists og, od, sg, sd, w'. split; [exact Hrun|]. split; [|exact Hsd].
    rewrite Hsg. reflexivity.
  - destruct (generator_warmup_by_mode cfg (loader mel_dataset) None (model mel_dataset) _
                (world mel_dataset) [] (toy_init mel_dataset) eq_refl)
      as (og & od & sg & sd & w' & Hrun & _ & Hsg & _ & Hsd).
    exists og, od, sg, sd, w'. split; [exact Hrun|]. split; [|exact Hsd].
    rewrite Hsg. reflexivity.
Defined.

Lemma convert_squeezes_forward_witness :
  exists fwd out,
    forward mel3 (world audio_dataset) = (Ok fwd, world audio_dataset) /\
    convert_spectrogram_to_audio mel3 (world audio_dataset) = (Ok out, world audio_dataset) /\
    shape fwd = [3%nat; 1%nat; 4%nat] /\
    shape out = [3%nat; 4%nat] /\
    item out [2%nat; 3%nat] = item fwd [2%nat; 0%nat; 3%nat].
Proof.
  destruct (convert_squeezes_forward (world audio_dataset) mel3 3 4 eq_refl)
    as (fwd & out & Hf & Hc & _ & Hsf & Hso & Hitem).
  exists fwd, out. auto.
Defined.

Lemma setup_validation_missing_shuffle_raises_witness :
  setup_validation_data (data_cfg params_without_shuffle) (world audio_dataset) =
    (Raise (AttributeError "shuffle"), world audio_dataset).
Proof.
  eapply setup_validation_missing_shuffle_raises; reflexivity.
Defined.

(** A validation step on three clips of ground-truth audio, first batch
    of the epoch, with a wandb logger. *)
Lemma toy_validation_returns :
  (validation_step (AudioBatch audio3 len3) 0 (world audio_dataset)).1 = Ok tt.
Proof. vm_compute. reflexivity. Qed.

Lemma validation_step_logs_val_loss_witness :
  exists clips specs,
    validation_step (AudioBatch audio3 len3) 0 (world audio_dataset) =
      (Ok tt,
       logged (after_denoise audio_dataset input_mel3)
         [Log "val_loss" 1; ExperimentLog clips specs]).
Proof.
  destruct (validation_step_logs_val_loss (world audio_dataset)
              (after_denoise audio_dataset input_mel3)
              (AudioBatch audio3 len3) 0 audio3 len3 input_mel3 (LenTensor input_len3)
              (denoised audio_dataset input_mel3)
              (squeezed (denoised audio_dataset input_mel3)) (squeezed (pred input_mel3)))
    as (_ & _ & r & rest & Hrun & _ & _ & Hon).
  - right. split; [reflexivity|]. split; [reflexivity|].
    exists input_len3. split; reflexivity.
  - vm_compute. reflexivity.
  - vm_compute. reflexivity.
  - vm_compute. reflexivity.
  - destruct (Hon eq_refl) as [(clips & specs & -> & ->) | (e & -> & ->)].
    + exists clips, specs. exact Hrun.
    + exfalso. pose proof toy_validation_returns as Hok. rewrite Hrun in Hok. discriminate Hok.
Defined.

(** C6 as stated fails when fine-tuning: the loss logged is taken
    against the batch's pre-computed mel (here 1), not against the input
    extractor's mel of the batch's audio (which would give 5). *)
Lemma validation_step_finetune_counterexample :
  finetune (self (world mel_dataset)) = true /\
  (validation_step (MelAudioBatch audio3 len3 mel3) 1 (world mel_dataset)).1 = Ok tt /\
  events (validation_step (MelAudioBatch audio3 len3 mel3) 1 (world mel_dataset)).2 =
    [Log "val_loss" 1] /\
  squeeze 1
    (generator_call (generator (self (world mel_dataset))) (net (world mel_dataset)) mel3) =
    Ok (squeezed (pred mel3)) /\
  l1_loss
    (preprocessor_call (audio_to_melspec_precessor (self (world mel_dataset))) audio3 len3).1
    (preprocessor_call (audio_to_melspec_precessor (self (world mel_dataset)))
       (squeezed (pred mel3)) len3).1 = 5 /\
  ~ In (Log "val_loss"
          (l1_loss
             (preprocessor_call (audio_to_melspec_precessor (self (world mel_dataset)))
                audio3 len3).1
             (preprocessor_call (audio_to_melspec_precessor (self (world mel_dataset)))
                (squeezed (pred mel3)) len3).1))
       (events (validation_step (MelAudioBatch audio3 len3 mel3) 1 (world mel_dataset)).2).
Proof.
  assert (Hev : events (validation_step (MelAudioBatch audio3 len3 mel3) 1
                          (world mel_dataset)).2 = [Log "val_loss" 1])
    by (vm_compute; reflexivity).
  assert (Hloss : l1_loss
    (preprocessor_call (audio_to_melspec_precessor (self (world mel_dataset))) audio3 len3).1
    (preprocessor_call (audio_to_melspec_precessor (self (world mel_dataset)))
       (squeezed (pred mel3)) len3).1 = 5) by (vm_compute; reflexivity).
  split; [reflexivity|]. split; [vm_compute; reflexivity|]. split; [exact Hev|].
  split; [vm_compute; reflexivity|]. split; [exact Hloss|].
  rewrite Hev, Hloss. intros [H|[]]. discriminate H.
Qed.



(** ** The further properties at work *)


(** A training step on a model whose optimizers were never configured. *)
Lemma training_step_before_configure_witness :
  training_step (AudioBatch audio3 len3) 0 0 (world audio_dataset) =
    (Raise (AttributeError "optim_d"), world audio_dataset).
Proof.
  apply (proj2 (training_step_before_configure (world audio_dataset)
                  (AudioBatch audio3 len3) 0 0 eq_refl)
           audio3 len3 input_mel3 (ok_or (full [] 0) (unsqueeze 1 audio3))
           (squeezed (pred input_mel3))).
  - right. split; [reflexivity|]. split; reflexivity.
  - vm_compute. reflexivity.
  - vm_compute. reflexivity.
Defined.

(** A training step after the optimizers were configured and a
    validation step was run. *)
Lemma training_step_after_configure_witness :
  let w1 := run_ops [CallValidationStep (AudioBatch audio3 len3) 0]
              (configure_optimizers (world audio_dataset)).2 in
  (training_step (AudioBatch audio3 len3) 1 0 w1).1 = Ok tt /\
  optim_d (self w1) =
    Some (discriminator_optimizer (_cfg (self (world audio_dataset)))).
Proof.
  intros w1.
  destruct (training_step_after_configure (world audio_dataset)
              [CallValidationStep (AudioBatch audio3 len3) 0]
              (AudioBatch audio3 len3) 1 0 audio3 len3 input_mel3 3 4 2 2 toy_generator_shape)
    as (Hod & _ & _ & _ & ld & lg & ms & Hok & _).
  - right. split; [vm_compute; reflexivity|]. split; [reflexivity|]. vm_compute. reflexivity.
  - reflexivity.
  - vm_compute. reflexivity.
  - split; [exact Hok | exact Hod].
Defined.

(** A two-element batch on a fine-tuning model, a three-element batch on
    a model training on ground-truth mels. *)
Lemma batch_arity_mismatch_witness :
  training_step (AudioBatch audio3 len3) 0 0 (world mel_dataset) =
    (Raise (ValueError "not enough values to unpack (expected 3, got 2)"), world mel_dataset) /\
  validation_step (MelAudioBatch audio3 len3 mel3) 0 (world audio_dataset) =
    (Raise (ValueError "too many values to unpack (expected 2)"), world audio_dataset).
Proof.
  split.
  - apply (proj1 (batch_arity_mismatch (world mel_dataset) 0 0)); vm_compute; reflexivity.
  - apply (proj2 (batch_arity_mismatch (world audio_dataset) 0 0)); vm_compute; reflexivity.
Defined.

(** Denoising with a cached bias, given another mel. *)
Lemma bias_denoise_cached_ignores_mel_witness :
  (_bias_denoise (pred mel3) mel2 (after_denoise audio_dataset input_mel3)).1 =
    (_bias_denoise (pred mel3) mel3 (after_denoise audio_dataset input_mel3)).1 /\
  (_bias_denoise (pred mel3) mel3 (after_denoise audio_dataset input_mel3)).2 =
    after_denoise audio_dataset input_mel3.
Proof.
  destruct (bias_denoise_cached_ignores_mel (after_denoise audio_dataset input_mel3)
              (pred mel3) mel3 mel2 7 1 false (bias_of input_mel3))
    as (H2 & H1 & _).
  - vm_compute. reflexivity.
  - split; assumption.
Defined.

(** A bias computed from one clip serves three; a bias computed from
    three clips turns one clip into three. *)
Lemma bias_denoise_batch_of_one_witness :
  (let w1 := (_bias_denoise (pred mel1) mel1 (world audio_dataset)).2 in
   exists out L',
     _bias_denoise (pred mel3) mel3 w1 = (Ok out, w1) /\ shape out = [3%nat; 1%nat; L']) /\
  (let w3 := (_bias_denoise (pred mel3) mel3 (world audio_dataset)).2 in
   exists out L',
     _bias_denoise (pred mel1) mel1 w3 = (Ok out, w3) /\ shape out = [3%nat; 1%nat; L']).
Proof.
  split; intros w.
  - destruct (bias_denoise_batch_of_one (world audio_dataset) (pred mel1) mel1 (pred mel3) mel3
                1 3 2 2 4 toy_generator_shape toy_stft_shape toy_istft_shape)
      as (bias & out & L' & _ & _ & Hrun & Hout); [reflexivity.. | now left |].
    exists out, L'. split; [exact Hrun | exact Hout].
  - destruct (bias_denoise_batch_of_one (world audio_dataset) (pred mel3) mel3 (pred mel1) mel1
                3 1 2 2 4 toy_generator_shape toy_stft_shape toy_istft_shape)
      as (bias & out & L' & _ & _ & Hrun & Hout); [reflexivity.. | now right |].
    exists out, L'. split; [exact Hrun | exact Hout].
Defined.

(** Two set-ups of the training data from a configuration without
    [shuffle]. *)
Lemma setup_training_data_twice_witness :
  exists cfg' w1 w2,
    setup_training_data (data_cfg params_without_shuffle) (world audio_dataset) = (Ok cfg', w1) /\
    setup_training_data cfg' w1 = (Ok cfg', w2) /\
    events w2 = events w1.
Proof.
  destruct (setup_training_data_twice (data_cfg params_without_shuffle)
              (mkDict true (<["_target_"%string := NStr mel_target]> ∅))
              (mkDict true params_without_shuffle) (world audio_dataset))
    as (cfg' & w1 & w2 & H1 & H2 & _ & _ & Hev); [reflexivity | reflexivity |].
  exists cfg', w1, w2. split; [exact H1|]. split; [exact H2|]. apply Hev. reflexivity.
Defined.

Lemma setup_training_data_confined_witness :
  exists cfg' params' w',
    setup_training_data (data_cfg params_without_shuffle) (world audio_dataset) = (Ok cfg', w') /\
    content cfg' !! "dataloader_params" = Some (NDict params') /\
    content params' !! "shuffle" = Some (NBool true) /\
    content params' !! "batch_size" = Some (NInt 3).
Proof.
  destruct (setup_training_data_confined (data_cfg params_without_shuffle)
              (mkDict true (<["_target_"%string := NStr mel_target]> ∅))
              (mkDict true params_without_shuffle) (world audio_dataset))
    as (cfg' & params' & dl & w' & Hrun & _ & _ & Hp & _ & Hkeys & Hsh & _);
    [reflexivity | reflexivity |].
  exists cfg', params', w'. split; [exact Hrun|]. split; [exact Hp|]. split; [exact Hsh|].
  rewrite Hkeys by discriminate. reflexivity.
Defined.

(** Setting up the validation data from a configuration that has
    [shuffle]. *)
Lemma setup_validation_data_keeps_cfg_witness :
  exists w',
    setup_validation_data (data_cfg params_with_shuffle) (world audio_dataset) =
      (Ok (data_cfg params_with_shuffle), w') /\
    _train_dl (self w') = Some (loader audio_dataset).
Proof.
  exists (setup_validation_data (data_cfg params_with_shuffle) (world audio_dataset)).2.
  assert (Hrun : setup_validation_data (data_cfg params_with_shuffle) (world audio_dataset) =
                 (Ok (data_cfg params_with_shuffle),
                  (setup_validation_data (data_cfg params_with_shuffle) (world audio_dataset)).2))
    by (vm_compute; reflexivity).
  split; [exact Hrun|].
  destruct (setup_validation_data_keeps_cfg _ _ _ _ Hrun) as (_ & ds & params & _ & _ & Hs & _).
  rewrite Hs. reflexivity.
Defined.

Lemma samples_of_in (evs : list Event) :
  has_samples evs = true -> In (ExperimentLog (samples_of evs).1 (samples_of evs).2) evs.
Proof.
  unfold has_samples, samples_of.
  destruct (last evs) as [[| | | | | |clips specs]|] eqn:E; try discriminate.
  intros _. apply last_Some in E as [l' ->]. apply in_or_app. right. now left.
Qed.

(** The samples of a validation step on three clips: nine audio clips
    and nine spectrograms. *)
Lemma validation_step_samples_witness :
  let evs := events (validation_step (AudioBatch audio3 len3) 0 (world audio_dataset)).2 in
  In (ExperimentLog (samples_of evs).1 (samples_of evs).2) evs /\
  length (samples_of evs).1 = 9%nat /\
  length (samples_of evs).2 = 9%nat.
Proof.
  intros evs.
  assert (Hin : In (ExperimentLog (samples_of evs).1 (samples_of evs).2) evs).
  { apply samples_of_in. vm_compute. reflexivity. }
  split; [exact Hin|].
  destruct (validation_step_samples (world audio_dataset) (AudioBatch audio3 len3) 0)
    as (evs' & Hev & Hall).
  destruct (Hall (samples_of evs).1 (samples_of evs).2) as (_ & _ & _ & count & Hsize & Hc & Hs).
  - change evs' with ([] ++ evs'). change (@nil Event) with (events (world audio_dataset)) at 1.
    rewrite <- Hev. exact Hin.
  - vm_compute in Hsize. injection Hsize as <-. split; [exact Hc | exact Hs].
Defined.

(** A first validation step on three clips of ground-truth audio. *)
Lemma validation_step_logs_under_laws_witness :
  exists v rest bias,
    events (validation_step (AudioBatch audio3 len3) 0 (world audio_dataset)).2 =
      Log "val_loss" v :: rest /\
    stft_bias (self (validation_step (AudioBatch audio3 len3) 0 (world audio_dataset)).2) =
      Some bias /\
    shape bias = [3%nat; n_bins; 1%nat].
Proof.
  destruct (validation_step_logs_under_laws (world audio_dataset) (AudioBatch audio3 len3) 0
              audio3 len3 input_mel3 (LenTensor input_len3) 3 2 2
              toy_generator_shape toy_stft_shape toy_istft_shape)
    as (pred_sq & rest & bias & _ & Hev & Hb & Hsb).
  - right. split; [reflexivity|]. split; [reflexivity|].
    exists input_len3. split; reflexivity.
  - vm_compute. reflexivity.
  - left. reflexivity.
  - eexists _, rest, bias. split; [exact Hev|]. split; [exact Hb | exact Hsb].
Defined.

(** The warmup of a model with [max_steps = 1000]. *)
Lemma warmup_steps_exact_witness :
  exists sg f,
    scheduler_g (self (configure_optimizers (world audio_dataset)).2) = Some sg /\
    sched_warmup_steps sg = Some (PyFloat f) /\
    PrimFloat.eqb f 200 = true.
Proof.
  destruct (warmup_steps_exact (world audio_dataset)) as (sg & f & Hs & Hw & Hf).
  - reflexivity.
  - vm_compute. split; discriminate.
  - exists sg, f. split; [exact Hs|]. split; [exact Hw|].
    rewrite <- Hf. vm_compute. reflexivity.
Defined.

(** The denoised prediction of three clips, squeezed. *)
Lemma bias_denoise_output_squeezes_witness :
  exists den s : Tensor Z,
    squeeze 1 (denoised audio_dataset mel3) = Ok s /\
    shape (denoised audio_dataset mel3) !! 1%nat = Some 1%nat /\
    shape s = shape den.
Proof.
  destruct (bias_denoise_output_squeezes (world audio_dataset) (pred mel3) mel3
              (denoised audio_dataset mel3))
    as (den & s & _ & Hone & Hs & Hshape & _).
  - vm_compute. reflexivity.
  - exists den, s. split; [exact Hs|]. split; [exact Hone | exact Hshape].
Defined.

(** The state and the metrics after a training step on three clips. *)
Lemma training_step_metrics_witness :
  exists metrics,
    last (events (training_step (AudioBatch audio3 len3) 0 0 (configured audio_dataset)).2) =
      Some (LogDict metrics) /\
    map fst metrics =
      ["g_l1_loss"; "g_loss_fm_mpd"; "g_loss_fm_msd"; "g_loss_gen_mpd"; "g_loss_gen_msd";
       "g_loss"; "d_loss_mpd"; "d_loss_msd"; "d_loss"; "global_step"; "lr"]%string.
Proof.
  destruct (training_step_metrics (configured audio_dataset) (AudioBatch audio3 len3) 0 0
              audio3 len3 input_mel3 (ok_or (full [] 0) (unsqueeze 1 audio3))
              (squeezed (pred input_mel3))
              (discriminator_optimizer cfg)
              (generator_optimizer cfg (generator (model audio_dataset))))
    as (l1 & fm1 & fm2 & g1 & g2 & d1 & d2 & Hlast & _).
  - right. split; [reflexivity|]. split; reflexivity.
  - vm_compute. reflexivity.
  - vm_compute. reflexivity.
  - vm_compute. reflexivity.
  - vm_compute. reflexivity.
  - eexists. split; [exact Hlast | reflexivity].
Defined.
